(** * Loopring dex-ux: [src/lightcone/ethereum/metaMask.js]

    A shallow embedding of the signing and signature-verification module,
    and the properties its specification states about it.

    The module talks to three kinds of collaborators that are not part of
    it: the wallet provider ([web3]), the byte-level helpers
    ([../common/formatter], [ethereumjs-util], [ethereumjs-tx], the ABI
    codec of [../ethereum/contracts]) and the browser's [window].  They
    are taken as records of functions, whose types say which of them may
    throw; beyond that only the laws of [FormatterLaws] are assumed, and
    only by the statements that name them.

    JavaScript promises are modelled by what a caller can observe of them:
    whether they resolve, reject or never settle, together with the list
    of provider requests issued on the way. *)

From Stdlib Require Import ZArith String Ascii List Lia Bool.
From stdpp Require Import gmap strings.

Open Scope string_scope.
Open Scope Z_scope.

(** ** JavaScript values and built-in string operations *)

Module JS.

(** A JS number as far as this module uses one: a double that holds an
    integer, [NaN] (what [Number] gives for a string that is not a
    numeral), or an infinity (what arithmetic gives past the largest
    double).  [Num 0] stands for both zeros, which nothing here tells
    apart. *)
Inductive number :=
| Num (z : Z)
| NaN
| Infinity (negative : bool).

Definition Buffer := list Byte.byte.

Inductive value :=
| Undefined
| Str (s : string)
| Number (n : number)
| Buf (b : Buffer).

(** What a [throw] carries. *)
Inductive exn :=
| Error (msg : string)
| TypeError.

(** Synchronous code: it returns or it throws. *)
Inductive Sync (A : Type) :=
| Returns (a : A)
| Throws (e : exn).
Arguments Returns {A} a.
Arguments Throws {A} e.

Definition sync_bind {A B} (c : Sync A) (k : A -> Sync B) : Sync B :=
  match c with
  | Returns a => k a
  | Throws e => Throws e
  end.

(** The double nearest to the integer [z]: [z] itself below 2^53 in
    magnitude; above, [z] cut to its 53 leading bits, rounded to the
    nearest such number and to the even one on a tie; an infinity when
    that is 2^1024 or more. *)
Definition round_to_double (z : Z) : number :=
  let m := Z.abs z in
  if m <? 2 ^ 53 then Num z
  else
    let shift := Z.log2 m - 52 in
    let q := Z.shiftr m shift in
    let rem := m - Z.shiftl q shift in
    let half := Z.shiftl 1 (shift - 1) in
    let q' := if rem <? half then q
              else if half <? rem then q + 1
              else if Z.even q then q else q + 1 in
    let r := Z.shiftl q' shift in
    if 2 ^ 1024 <=? r then Infinity (z <? 0) else Num (Z.sgn z * r).


(** [x + y] on numbers: the exact sum, rounded. *)
Definition add (x y : number) : number :=
  match x, y with
  | Num a, Num b => round_to_double (a + b)
  | NaN, _ | _, NaN => NaN
  | Infinity s, Num _ | Num _, Infinity s => Infinity s
  | Infinity s, Infinity s' => if Bool.eqb s s' then Infinity s else NaN
  end.

(** [x * y] on numbers: the exact product, rounded. *)
Definition mul (x y : number) : number :=
  match x, y with
  | Num a, Num b => round_to_double (a * b)
  | NaN, _ | _, NaN => NaN
  | Infinity s, Num b | Num b, Infinity s =>
      if b =? 0 then NaN else Infinity (xorb s (b <? 0))
  | Infinity s, Infinity s' => Infinity (xorb s s')
  end.

(** [x === k] for a number [x] and an integer literal [k]. *)
Definition strict_eq_lit (x : number) (k : Z) : bool :=
  match x with
  | Num a => a =? k
  | NaN | Infinity _ => false
  end.

(** [s.slice(a, b)] for literal indices [0 <= a <= b]. *)
Definition slice (a b : nat) (s : string) : string :=
  String.substring a (b - a) s.

(** [s.indexOf(t)]: the position of the first occurrence, or [-1]. *)
Definition indexOf (s t : string) : Z :=
  match String.index 0 t s with
  | Some n => Z.of_nat n
  | None => -1
  end.

(** [s.substring(a, b)]: negative arguments count as 0, arguments past
    the end as the length, and the two are swapped when [a > b]. *)
Definition substring (a b : Z) (s : string) : string :=
  let len := Z.of_nat (String.length s) in
  let a' := Z.min (Z.max a 0) len in
  let b' := Z.min (Z.max b 0) len in
  let lo := Z.min a' b' in
  let hi := Z.max a' b' in
  String.substring (Z.to_nat lo) (Z.to_nat (hi - lo)) s.

Definition lower_ascii (c : ascii) : ascii :=
  let n := nat_of_ascii c in
  if ((65 <=? n) && (n <=? 90))%nat then ascii_of_nat (n + 32) else c.

(** [s.toLowerCase()] on the ASCII range (addresses are hex strings). *)
Fixpoint toLowerCase (s : string) : string :=
  match s with
  | EmptyString => EmptyString
  | String c s' => String (lower_ascii c) (toLowerCase s')
  end.

(** [x === lit] for a string literal [lit]. *)
Definition strict_eq_string (x : value) (lit : string) : bool :=
  match x with
  | Str s => String.eqb s lit
  | _ => false
  end.

(** The truthiness of a string: every string but the empty one. *)
Definition truthy_string (s : string) : bool :=
  match s with
  | EmptyString => false
  | String _ _ => true
  end.

(** [l[0]]. *)
Definition first (l : list value) : value :=
  match l with
  | [] => Undefined
  | x :: _ => x
  end.

End JS.

Notation "x <-! c ;; k" := (JS.sync_bind c (fun x => k))
  (at level 100, c at next level, right associativity).

(** ** Hex digits, for the layout of an RPC signature string *)

Definition hex_digit_value (c : ascii) : option Z :=
  let n := Z.of_nat (nat_of_ascii c) in
  if (48 <=? n) && (n <=? 57) then Some (n - 48)
  else if (97 <=? n) && (n <=? 102) then Some (n - 87)
  else if (65 <=? n) && (n <=? 70) then Some (n - 55)
  else None.

Definition is_hex_digit (c : ascii) : bool :=
  match hex_digit_value c with Some _ => true | None => false end.

Fixpoint is_hex (s : string) : bool :=
  match s with
  | EmptyString => true
  | String c s' => is_hex_digit c && is_hex s'
  end.

(** The value of a two-digit hex byte. *)
Definition hex_byte (d1 d2 : ascii) : Z :=
  match hex_digit_value d1, hex_digit_value d2 with
  | Some a, Some b => 16 * a + b
  | _, _ => 0
  end.

(** ** Provider requests and promises *)

(** The error object a provider hands to a node-style callback.  The
    module only ever reads its [message]. *)
Record ProviderError := { message : string }.

(** The two arguments [(err, result)] of a node-style callback: either
    [err] is set, or [result] is. *)
Inductive Response (A : Type) :=
| Failure (err : ProviderError)
| Success (result : A).
Arguments Failure {A} err.
Arguments Success {A} result.

(** The verification functions of the module, by their names in the
    source. *)
Inductive StrategyFn :=
| fn_ecRecover
| fn_walletLinkValid
| fn_contractWalletValidate
| fn_contractWalletValidate2
| fn_authereumValid
| fn_mykeyWalletValid.

(** The names the specification gives them (section 4.2). *)
Definition PlainRecover := fn_ecRecover.
Definition WalletLinkRecover := fn_walletLinkValid.
Definition ContractWalletBytesBytes := fn_contractWalletValidate.
Definition ContractWalletBytes32Bytes := fn_contractWalletValidate2.
Definition AuthereumValidate := fn_authereumValid.
Definition MyKeyRegistryValid := fn_mykeyWalletValid.

(** A JS object as its own properties. *)
Abbreviation Object := (gmap string JS.value).

(** What a run leaves behind: the requests sent to the provider, in
    order, and (as a ghost mark) each entry into a verification function. *)
Inductive Event :=
| EthSign (hash account : string)
| PersonalSign (msg account password : string)
| PersonalEcRecover (msg sig : string)
| EthCall (to data : string)
| EthSendTransaction (tx : Object)
| Enter (fn : StrategyFn).

(** How a promise ends: [resolve] was called, the promise was rejected,
    or neither ever happens. *)
Inductive Settle (A : Type) :=
| Resolved (a : A)
| Rejected (e : JS.exn)
| Pending.
Arguments Resolved {A} a.
Arguments Rejected {A} e.
Arguments Pending {A}.

Definition Async (A : Type) : Type := list Event * Settle A.

Definition resolve {A} (a : A) : Async A := ([], Resolved a).

Definition emit (ev : Event) : Async unit := ([ev], Resolved tt).

(** [const x = await p; k x] inside an async function: a rejection of
    [p] is thrown at the [await], and nothing in this module catches it. *)
Definition await {A B} (p : Async A) (k : A -> Async B) : Async B :=
  match p with
  | (tr, Resolved a) => let '(tr', r) := k a in (tr ++ tr', r)%list
  | (tr, Rejected e) => (tr, Rejected e)
  | (tr, Pending) => (tr, Pending)
  end.

Notation "x <- 'await' p ;; k" := (await p (fun x => k))
  (at level 100, p at next level, right associativity).
Notation "p ;;; k" := (await p (fun _ => k))
  (at level 100, right associativity).

(** The body of a [new Promise((resolve) => ...)] executor that runs
    synchronous code and then calls [resolve]: a throw in the executor
    rejects the promise. *)
Definition executor {A} (body : JS.Sync A) : Async A :=
  match body with
  | JS.Returns a => ([], Resolved a)
  | JS.Throws e => ([], Rejected e)
  end.

(** A plain [function (err, result) { ... resolve(...) }] handed to the
    provider: when its body throws, the throw goes to the provider's
    code, [resolve] is never called and the promise stays pending. *)
Definition callback {A} (body : JS.Sync A) : Async A :=
  match body with
  | JS.Returns a => ([], Resolved a)
  | JS.Throws _ => ([], Pending)
  end.

(** An [async function (err, result) { ... resolve(...) }] handed to the
    provider: the promise it returns is dropped by the provider, so when
    an [await] in it throws, the enclosing promise stays pending. *)
Definition async_callback {A} (body : Async A) : Async A :=
  match body with
  | (tr, Rejected _) => (tr, Pending)
  | other => other
  end.

(** A request to the provider: the request is sent, and the provider
    calls the continuation once with its response. *)
Definition request {R A} (ev : Event) (resp : Response R)
    (k : Response R -> Async A) : Async A :=
  emit ev ;;; k resp.

Definition trace {A} (p : Async A) : list Event := fst p.
Definition outcome {A} (p : Async A) : Settle A := snd p.

(** The verification functions a run entered, in order. *)
Fixpoint entered (tr : list Event) : list StrategyFn :=
  match tr with
  | [] => []
  | Enter fn :: tr' => fn :: entered tr'
  | _ :: tr' => entered tr'
  end.

(** The provider requests of a run, in order. *)
Fixpoint requests (tr : list Event) : list Event :=
  match tr with
  | [] => []
  | Enter _ :: tr' => requests tr'
  | ev :: tr' => ev :: requests tr'
  end.

(** ** The collaborators *)

(** [../common/formatter].  [addHexPrefix] is applied to strings and to
    a decoded ABI output; [toNumber] to the string [addHexPrefix]
    returns; [toBuffer] to strings and decoded outputs; [toHex] to
    buffers. *)
Record Formatter := {
  addHexPrefix : JS.value -> JS.Sync string;
  toNumber : string -> JS.number;
  toBuffer : JS.value -> JS.Buffer;
  toHex : JS.Buffer -> string;
}.

(** Modelled from the spec: the source of [addHexPrefix] and [toNumber]
    ([../common/formatter]) is missing.  The spec's split of a signature
    (section 3: r = first 32 bytes, s = next 32, v = final byte) fixes
    them on hex text: a string gets the prefix [0x] unless it has it, and
    a prefixed two-digit hex string is read as the byte it writes. *)
Record FormatterLaws (fmt : Formatter) : Prop := {
  addHexPrefix_string : forall s,
    addHexPrefix fmt (JS.Str s) =
    JS.Returns (if String.prefix "0x" s then s else "0x" +:+ s);
  toNumber_hex_byte : forall d1 d2,
    is_hex_digit d1 = true -> is_hex_digit d2 = true ->
    toNumber fmt (String "0" (String "x" (String d1 (String d2 EmptyString))))
    = JS.Num (hex_byte d1 d2);
}.

(** The [{v, r, s}] object of [ethereumjs-util]. *)
Record ECDSASignature := {
  sig_v : Z;
  sig_r : JS.Buffer;
  sig_s : JS.Buffer;
}.

(** [ethereumjs-util].  [fromRpcSig] and [ecrecover] throw on a
    signature they cannot use; the hashes are total (spec, section 4.1). *)
Record EthUtil := {
  hashPersonalMessage : JS.Buffer -> JS.Buffer;
  keccak256 : JS.Buffer -> JS.Buffer;
  fromRpcSig : string -> JS.Sync ECDSASignature;
  ecrecover : JS.Buffer -> Z -> JS.Buffer -> JS.Buffer -> JS.Sync JS.Buffer;
  pubToAddress : JS.Buffer -> JS.Buffer;
}.

(** [ABI.Contracts.ContractWallet] of [../ethereum/contracts]: the codec
    of the spec's section 6, from a method and its named arguments to
    call data, and from return data to the list of outputs. *)
Record ContractWallet := {
  encodeInputs : string -> list (string * JS.value) -> string;
  decodeOutputs : string -> string -> list JS.value;
}.

(** [ethereumjs-tx]: the envelope is an object of that library; the
    module only constructs it, reads its hash and chain id, assigns its
    [r], [s] and [v] and serializes it.  The constructor throws on a raw
    transaction it refuses, and the setter of a field throws on a value
    it refuses.  The chain id is an integer held in a number. *)
Record EthereumTx := {
  Transaction : Type;
  new_Transaction : Object -> JS.Sync Transaction;
  tx_hash : Transaction -> bool -> JS.Buffer;
  getChainId : Transaction -> Z;
  tx_set : string -> JS.value -> Transaction -> JS.Sync Transaction;
  serialize : Transaction -> JS.Buffer;
}.

(** The provider.  Each request is answered once, with an error or a
    result, and the answer is a function of the request: a run of the
    module holds no state of its own, and the provider's is not
    modelled. *)
Record Web3 := {
  eth_sign : string -> string -> Response string;
  personal_sign : string -> string -> string -> Response string;
  personal_ecRecover : string -> string -> Response string;
  eth_call : string -> string -> Response string;
  eth_sendTransaction : Object -> Response string;
}.

(** [window]: whether [window.imToken] is truthy, and [window.ethereum]
    (absent, or an object whose [isImToken] is truthy or not). *)
Record Ethereum := { isImToken : bool }.
Record Window := {
  imToken : bool;
  ethereum : option Ethereum;
}.

(** ** The objects the module's promises resolve with *)

(** The [{ r, s, v }] object [sign] builds. *)
Module Sig.
Record t := { r : string; s : string; v : JS.number }.
Definition set_v (n : JS.number) (sg : t) : t :=
  {| r := r sg; s := s sg; v := n |}.
End Sig.

(** [{ result: { r, s, v } }] or [{ error: { message } }]. *)
Inductive SignResponse :=
| SignResult (result : Sig.t)
| SignError (errorMsg : string).

(** What a verification function resolves with: [{ result: <boolean> }]
    or [{ error: err }]. *)
Inductive Valid :=
| ValidResult (result : bool)
| ValidError (error : ProviderError).

(** The truthiness of [valid.result]; it is [undefined] on
    [{ error: err }]. *)
Definition valid_result (valid : Valid) : bool :=
  match valid with
  | ValidResult b => b
  | ValidError _ => false
  end.

(** What [personalSign] resolves with: [{ sig: result }],
    [{ error: '<text>' }] or [{ error: err }]. *)
Inductive PersonalSignResponse :=
| SigOf (sig : string)
| ErrorText (error : string)
| ErrorObject (error : ProviderError).

(** What the callback of [sendTransaction] resolves with:
    [{ result: transactionHash }] or [{ error: { message } }]. *)
Inductive SendResponse :=
| SendResult (transactionHash : string)
| SendError (errorMsg : string).

(** The caller's objects, by reference. *)
Abbreviation Heap := (gmap positive Object).

(** ** The module *)

Section MetaMask.

Context (fmt : Formatter) (util : EthUtil) (abi : ContractWallet)
        (txlib : EthereumTx) (window : Window) (web3 : Web3).

(** [sign(web3, account, hash)] *)
Definition sign (account hash : string) : Async SignResponse :=
  request (EthSign hash account) (eth_sign web3 hash account) (fun resp =>
    callback
      match resp with
      | Success result =>
          let r := JS.slice 0 66 result in
          s <-! addHexPrefix fmt (JS.Str (JS.slice 66 130 result)) ;;
          p <-! addHexPrefix fmt (JS.Str (JS.slice 130 132 result)) ;;
          let v := toNumber fmt p in
          let v :=
            if JS.strict_eq_lit v 0 || JS.strict_eq_lit v 1
            then JS.add v (JS.Num 27) else v in
          JS.Returns (SignResult {| Sig.r := r; Sig.s := s; Sig.v := v |})
      | Failure err =>
          let errorMsg :=
            JS.substring 0 (JS.indexOf (message err) " at ") (message err) in
          JS.Returns (SignError errorMsg)
      end).

(** [ecRecover(web3, account, msg, sig)] *)
Definition ecRecover (account msg sig : string) : Async Valid :=
  emit (Enter fn_ecRecover) ;;;
  request (PersonalEcRecover msg sig) (personal_ecRecover web3 msg sig)
    (fun resp =>
      callback
        match resp with
        | Success address =>
            JS.Returns (ValidResult
              (String.eqb (JS.toLowerCase address) (JS.toLowerCase account)))
        | Failure err => JS.Returns (ValidError err)
        end).

(** [contractWalletValidate(web3, account, msg, sig)] *)
Definition contractWalletValidate (account msg sig : string) : Async Valid :=
  emit (Enter fn_contractWalletValidate) ;;;
  let hash := hashPersonalMessage util (toBuffer fmt (JS.Str msg)) in
  let data :=
    encodeInputs abi "isValidSignature(bytes,bytes)"
      [("_data", JS.Buf hash);
       ("_signature", JS.Buf (toBuffer fmt (JS.Str sig)))] in
  request (EthCall account data) (eth_call web3 account data) (fun resp =>
    callback
      match resp with
      | Success result =>
          let valid := decodeOutputs abi "isValidSignature(bytes,bytes)" result in
          JS.Returns (ValidResult
            (String.eqb (toHex fmt (toBuffer fmt (JS.first valid)))
                        (JS.slice 0 10 data)))
      | Failure err => JS.Returns (ValidError err)
      end).

(** [contractWalletValidate2(web3, account, msg, sig)] *)
Definition contractWalletValidate2 (account msg sig : string) : Async Valid :=
  emit (Enter fn_contractWalletValidate2) ;;;
  let hash := hashPersonalMessage util (toBuffer fmt (JS.Str msg)) in
  let data :=
    encodeInputs abi "isValidSignature(bytes32,bytes)"
      [("_data", JS.Buf hash);
       ("_signature", JS.Buf (toBuffer fmt (JS.Str sig)))] in
  request (EthCall account data) (eth_call web3 account data) (fun resp =>
    callback
      match resp with
      | Success result =>
          let valid := decodeOutputs abi "isValidSignature(bytes32,bytes)" result in
          JS.Returns (ValidResult
            (String.eqb (toHex fmt (toBuffer fmt (JS.first valid)))
                        (JS.slice 0 10 data)))
      | Failure err => JS.Returns (ValidError err)
      end).

Definition myKeyContract : string :=
  "0xADc92d1fD878580579716d944eF3460E241604b7".

(** [mykeyWalletValid(web3, account, msg, sig)] *)
Definition mykeyWalletValid (account msg sig : string) : Async Valid :=
  emit (Enter fn_mykeyWalletValid) ;;;
  let data :=
    encodeInputs abi "getKeyData"
      [("_account", JS.Str account); ("_index", JS.Number (JS.Num 3))] in
  request (EthCall myKeyContract data) (eth_call web3 myKeyContract data)
    (fun resp =>
      callback
        match resp with
        | Success res =>
            signature <-! fromRpcSig util sig ;;
            let hash :=
              hashPersonalMessage util
                (keccak256 util (toBuffer fmt (JS.Str msg))) in
            address <-! addHexPrefix fmt
                          (JS.first (decodeOutputs abi "getKeyData" res)) ;;
            pub <-! ecrecover util hash (sig_v signature) (sig_r signature)
                      (sig_s signature) ;;
            let recAddress := toHex fmt (pubToAddress util pub) in
            JS.Returns (ValidResult
              (String.eqb (JS.toLowerCase recAddress)
                          (JS.toLowerCase address)))
        | Failure err => JS.Returns (ValidError err)
        end).

(** Authereum account contract hashes the data in the validation function,
    so the data is sent plain. *)
(** [authereumValid(web3, account, msg, sig)] *)
Definition authereumValid (account msg sig : string) : Async Valid :=
  emit (Enter fn_authereumValid) ;;;
  let hash := toBuffer fmt (JS.Str msg) in
  let data :=
    encodeInputs abi "isValidSignature(bytes,bytes)"
      [("_data", JS.Buf hash);
       ("_signature", JS.Buf (toBuffer fmt (JS.Str sig)))] in
  request (EthCall account data) (eth_call web3 account data) (fun resp =>
    callback
      match resp with
      | Success result =>
          let valid := decodeOutputs abi "isValidSignature(bytes,bytes)" result in
          JS.Returns (ValidResult
            (String.eqb (toHex fmt (toBuffer fmt (JS.first valid)))
                        (JS.slice 0 10 data)))
      | Failure err => JS.Returns (ValidError err)
      end).

(** [walletLinkValid(web3, account, msg, sig)] *)
Definition walletLinkValid (account msg sig : string) : Async Valid :=
  emit (Enter fn_walletLinkValid) ;;;
  executor (
    signature <-! fromRpcSig util sig ;;
    let hash := hashPersonalMessage util (toBuffer fmt (JS.Str msg)) in
    pub <-! ecrecover util hash (sig_v signature) (sig_r signature)
              (sig_s signature) ;;
    let recAddress := toHex fmt (pubToAddress util pub) in
    JS.Returns (ValidResult
      (String.eqb (JS.toLowerCase recAddress) (JS.toLowerCase account)))).

(** [!!window.imToken || (window.ethereum && window.ethereum.isImToken)] *)
Definition is_imToken : bool :=
  imToken window ||
  match ethereum window with
  | Some e => isImToken e
  | None => false
  end.

(** [personalSign(web3, account, msg, walletType)] *)
Definition personalSign (account msg : string) (walletType : JS.value)
    : Async PersonalSignResponse :=
  request (PersonalSign msg account "") (personal_sign web3 msg account "")
    (fun resp =>
      async_callback
        match resp with
        | Success result =>
            if is_imToken then resolve (SigOf result)
            else if JS.strict_eq_string walletType "WalletLink" then
              valid <- await walletLinkValid account msg result ;;
              if valid_result valid then resolve (SigOf result)
              else resolve (ErrorText "Failed to valid using WalletLink")
            else if JS.strict_eq_string walletType "Authereum" then
              valid <- await authereumValid account msg result ;;
              if valid_result valid then resolve (SigOf result)
              else resolve (ErrorText "invalid sig using Authereum")
            else
              valid <- await ecRecover account msg result ;;
              if valid_result valid then resolve (SigOf result)
              else
                walletValid <- await contractWalletValidate account msg result ;;
                if valid_result walletValid then resolve (SigOf result)
                else
                  walletValid2 <- await
                    contractWalletValidate2 account msg result ;;
                  if valid_result walletValid2 then resolve (SigOf result)
                  else
                    myKeyValid <- await mykeyWalletValid account msg result ;;
                    if valid_result myKeyValid then resolve (SigOf result)
                    else resolve (ErrorText "invalid sig")
        | Failure err => resolve (ErrorObject err)
        end).

(** [Object.assign(ethTx, signature)]: the properties [r], [s], [v] of
    the signature are set on the envelope, in that order, through the
    envelope's setters; the first setter that throws ends the assignment. *)
Definition assign_signature (ethTx : Transaction txlib) (signature : Sig.t)
    : JS.Sync (Transaction txlib) :=
  ethTx <-! tx_set txlib "r" (JS.Str (Sig.r signature)) ethTx ;;
  ethTx <-! tx_set txlib "s" (JS.Str (Sig.s signature)) ethTx ;;
  tx_set txlib "v" (JS.Number (Sig.v signature)) ethTx.

(** [signEthereumTx(web3, account, rawTx)]; it resolves with
    [{ result: <hex> }], given here by its [result].  A throw in the body
    of this async function rejects its promise. *)
Definition signEthereumTx (account : string) (rawTx : Object) : Async string :=
  match new_Transaction txlib rawTx with
  | JS.Throws e => ([], Rejected e)
  | JS.Returns ethTx =>
      let hash := toHex fmt (tx_hash txlib ethTx false) in
      response <- await sign account hash ;;
      match response with
      | SignResult signature =>
          let signature :=
            Sig.set_v
              (JS.add (Sig.v signature)
                 (JS.add (JS.mul (JS.Num (getChainId txlib ethTx)) (JS.Num 2))
                    (JS.Num 8)))
              signature in
          match assign_signature ethTx signature with
          | JS.Throws e => ([], Rejected e)
          | JS.Returns ethTx => resolve (toHex fmt (serialize txlib ethTx))
          end
      | SignError errorMsg => ([], Rejected (JS.Error errorMsg))
      end
  end.

(** [sendTransaction(web3, tx)], with [tx] a reference into the caller's
    heap.  The heap after the call is returned beside the promise.  A
    [tx] that refers to no object makes [delete tx.gasPrice] throw. *)
Definition sendTransaction (heap : Heap) (tx : positive)
    : Heap * Async SendResponse :=
  match heap !! tx with
  | None => (heap, ([], Rejected JS.TypeError))
  | Some obj =>
      let obj' := delete "gasPrice" obj in
      (<[tx := obj']> heap,
       response <- await
         request (EthSendTransaction obj') (eth_sendTransaction web3 obj')
           (fun resp =>
             callback
               match resp with
               | Success transactionHash =>
                   JS.Returns (SendResult transactionHash)
               | Failure err => JS.Returns (SendError (message err))
               end) ;;
       match response with
       | SendResult transactionHash =>
           if JS.truthy_string transactionHash then resolve response
           else ([], Rejected JS.TypeError)
       | SendError errorMsg => ([], Rejected (JS.Error errorMsg))
       end)
  end.

End MetaMask.

(** ** How a verification function ended *)

(** It resolved with [{ result: true }]. *)
Definition verified (p : Async Valid) : Prop :=
  exists valid, outcome p = Resolved valid /\ valid_result valid = true.

(** It resolved with anything else: [{ result: false }] or
    [{ error: err }]. *)
Definition not_verified (p : Async Valid) : Prop :=
  exists valid, outcome p = Resolved valid /\ valid_result valid = false.

(** The public key cannot be recovered from [sig] for [hash]: the string
    is not a signature [fromRpcSig] accepts, or its (v, r, s) are not ones
    [ecrecover] accepts. *)
Definition recovery_fails (util : EthUtil) (hash : JS.Buffer) (sig : string)
    : Prop :=
  (exists e, fromRpcSig util sig = JS.Throws e) \/
  (exists signature e,
     fromRpcSig util sig = JS.Returns signature /\
     ecrecover util hash (sig_v signature) (sig_r signature) (sig_s signature)
     = JS.Throws e).

(** The order of the generic chain. *)
Definition generic_order : list StrategyFn :=
  [PlainRecover; ContractWalletBytesBytes; ContractWalletBytes32Bytes;
   MyKeyRegistryValid].

(** The four runs of the generic chain, in the order of [personalSign]. *)
Definition generic_chain fmt util abi web3 (account msg sig : string)
    : list (Async Valid) :=
  [ecRecover web3 account msg sig;
   contractWalletValidate fmt util abi web3 account msg sig;
   contractWalletValidate2 fmt util abi web3 account msg sig;
   mykeyWalletValid fmt util abi web3 account msg sig].

(** The text [sign] keeps of a provider message: what precedes the first
    [" at "]. *)
Definition before_marker (msg : string) : string :=
  JS.substring 0 (JS.indexOf msg " at ") msg.

(** The recovery id [sign] resolves with, from the byte it was given. *)
Definition normalized_v (b : Z) : Z :=
  if (b =? 0) || (b =? 1) then b + 27 else b.

(** ** Sample collaborators

    Small stand-ins for the libraries and the provider, to run the module
    on concrete inputs.  The "curve" is a toy: the signer's public key is
    written in [r]. *)

Module Sample.

Definition fmt : Formatter := {|
  addHexPrefix := fun x =>
    match x with
    | JS.Str s => JS.Returns (if String.prefix "0x" s then s else "0x" +:+ s)
    | _ => JS.Throws (JS.Error "Unsupported type")
    end;
  toNumber := fun s =>
    match s with
    | String "0" (String "x" (String d1 (String d2 EmptyString))) =>
        if is_hex_digit d1 && is_hex_digit d2
        then JS.Num (hex_byte d1 d2) else JS.NaN
    | _ => JS.NaN
    end;
  toBuffer := fun x =>
    match x with
    | JS.Str s => list_byte_of_string s
    | JS.Buf b => b
    | _ => []
    end;
  toHex := string_of_list_byte;
|}.

Definition util : EthUtil := {|
  hashPersonalMessage := fun b => b;
  keccak256 := fun b => b;
  fromRpcSig := fun sig =>
    if (String.length sig =? 132)%nat
    then JS.Returns {| sig_v := 27;
                       sig_r := list_byte_of_string (JS.slice 2 66 sig);
                       sig_s := list_byte_of_string (JS.slice 66 130 sig) |}
    else JS.Throws (JS.Error "Invalid signature length");
  ecrecover := fun _ v r _ =>
    if (v =? 27) || (v =? 28) then JS.Returns r
    else JS.Throws (JS.Error "Invalid signature v value");
  pubToAddress := fun pub => pub;
|}.

Definition abi : ContractWallet := {|
  encodeInputs := fun method _ => "0x1626ba7e" +:+ method;
  decodeOutputs := fun _ result => [JS.Str result];
|}.

(** The value of a field as the sample envelope writes it: a string as
    it is, an integer in binary. *)
Fixpoint positive_bits (p : positive) : string :=
  match p with
  | xH => "1"
  | xO p' => positive_bits p' +:+ "0"
  | xI p' => positive_bits p' +:+ "1"
  end.

Definition field_text (x : JS.value) : string :=
  match x with
  | JS.Str s => s
  | JS.Number (JS.Num (Zpos p)) => positive_bits p
  | JS.Number (JS.Num (Zneg p)) => "-" +:+ positive_bits p
  | JS.Number (JS.Num Z0) => "0"
  | _ => "?"
  end.

(** An envelope on the chain [chainId]: the fields set so far, latest
    first.  The constructor refuses a raw transaction whose [to] is not
    the text of 20 bytes; a setter refuses a string of more than 32
    bytes. *)
Definition chain_txlib (chainId : Z) : EthereumTx := {|
  Transaction := list (string * JS.value);
  new_Transaction := fun raw =>
    match raw !! "to" with
    | Some (JS.Str s) =>
        if (String.length s =? 42)%nat then JS.Returns (map_to_list raw)
        else JS.Throws (JS.Error "The field to must have byte length of 20")
    | _ => JS.Returns (map_to_list raw)
    end;
  tx_hash := fun _ _ => [];
  getChainId := fun _ => chainId;
  tx_set := fun k x tx =>
    match x with
    | JS.Str s =>
        if (String.length s <=? 66)%nat then JS.Returns ((k, x) :: tx)
        else JS.Throws (JS.Error "The field must not have more 32 bytes")
    | _ => JS.Returns ((k, x) :: tx)
    end;
  serialize := fun tx =>
    list_byte_of_string
      (String.concat ","
         (map (fun kx => fst kx +:+ "=" +:+ field_text (snd kx)) tx));
|}.

Definition txlib : EthereumTx := chain_txlib 1.

(** A browser without imToken, and one with it. *)
Definition plain_window : Window := {| imToken := false; ethereum := None |}.
Definition imToken_window : Window := {| imToken := true; ethereum := None |}.

(** A provider that answers every sign request with [signed], every
    remote recovery with [recovered], and a call by [called]. *)
Definition provider (signed recovered : Response string)
    (called : string -> string -> Response string) : Web3 := {|
  eth_sign := fun _ _ => signed;
  personal_sign := fun _ _ _ => signed;
  personal_ecRecover := fun _ _ => recovered;
  eth_call := called;
  eth_sendTransaction := fun _ => signed;
|}.

Definition account : string := "0xAbCd".

(** A well-formed RPC signature string ending in the byte [v]: 64 hex
    digits of r, 64 of s, two of v. *)
Definition r64 : string :=
  "1111111111111111111111111111111111111111111111111111111111111111".
Definition s64 : string :=
  "2222222222222222222222222222222222222222222222222222222222222222".
Definition rpc_sig (v : string) : string := "0x" +:+ r64 +:+ s64 +:+ v.

Definition refused : ProviderError :=
  {| message := "User denied message signature. at Object.sign (inpage.js:1)" |}.

Definition reverted : ProviderError := {| message := "execution reverted" |}.

(** No contract answers. *)
Definition no_contract (to data : string) : Response string :=
  Failure reverted.

(** Only the MyKey registry answers. *)
Definition registry_only (to data : string) : Response string :=
  if String.eqb to myKeyContract
  then Success "00000000000000000000000000000000000000aa"
  else Failure reverted.

(** A contract wallet at [account] that implements only
    [isValidSignature(bytes32,bytes)] and echoes the selector. *)
Definition bytes32_wallet (to data : string) : Response string :=
  if String.eqb to account &&
     String.eqb data (encodeInputs abi "isValidSignature(bytes32,bytes)" [])
  then Success "0x1626ba7e"
  else Failure reverted.

End Sample.

(** ** The claims as the specification words them, where the code
       differs *)

(** The message a response of [personalSign] carries, if it is an error. *)
Definition surfaced_message (resp : PersonalSignResponse) : option string :=
  match resp with
  | SigOf _ => None
  | ErrorText text => Some text
  | ErrorObject err => Some (message err)
  end.

(** C1 as stated, in its last part: a generic chain whose four runs all
    finish without a verification rejects with "invalid signature". *)
Definition exhausted_rejects_with fmt util abi window web3
    (account msg : string) (walletType : JS.value) (reason : string) : Prop :=
  forall sig,
    personal_sign web3 msg account "" = Success sig ->
    is_imToken window = false ->
    JS.strict_eq_string walletType "WalletLink" = false ->
    JS.strict_eq_string walletType "Authereum" = false ->
    Forall not_verified (generic_chain fmt util abi web3 account msg sig) ->
    outcome (personalSign fmt util abi window web3 account msg walletType)
    = Resolved (ErrorText reason).

(** C4 as stated: on a sign error the orchestrator runs nothing and
    surfaces the provider's message cut before the first [" at "]. *)
Definition sign_error_surfaced_trimmed fmt util abi window web3
    (account msg : string) (walletType : JS.value) : Prop :=
  forall err,
    personal_sign web3 msg account "" = Failure err ->
    let p := personalSign fmt util abi window web3 account msg walletType in
    entered (trace p) = [] /\
    exists resp, outcome p = Resolved resp /\
      surfaced_message resp = Some (before_marker (message err)).

(** C7 as stated: with the hint WalletLink and a successful sign call,
    only [walletLinkValid] runs, locally; a match accepts, anything else
    rejects with a reason. *)
Definition walletLink_path_as_stated fmt util abi window web3
    (account msg : string) : Prop :=
  forall sig,
    personal_sign web3 msg account "" = Success sig ->
    let p := personalSign fmt util abi window web3 account msg
               (JS.Str "WalletLink") in
    entered (trace p) = [WalletLinkRecover] /\
    requests (trace p) = [PersonalSign msg account ""] /\
    (verified (walletLinkValid fmt util account msg sig) ->
     outcome p = Resolved (SigOf sig)) /\
    (~ verified (walletLinkValid fmt util account msg sig) ->
     exists reason, outcome p = Resolved (ErrorText reason)).

(** C8 as stated: with the hint Authereum and a successful sign call,
    only [authereumValid] runs; a verification accepts, anything else
    rejects. *)
Definition authereum_path_as_stated fmt util abi window web3
    (account msg : string) : Prop :=
  forall sig,
    personal_sign web3 msg account "" = Success sig ->
    let p := personalSign fmt util abi window web3 account msg
               (JS.Str "Authereum") in
    entered (trace p) = [AuthereumValidate] /\
    (verified (authereumValid fmt abi web3 account msg sig) ->
     outcome p = Resolved (SigOf sig)) /\
    (~ verified (authereumValid fmt abi web3 account msg sig) ->
     exists reason, outcome p = Resolved (ErrorText reason)).

(** C5 as stated, in its middle part: on every raw RPC signature
    string the v that [sign] resolves with is 27 or 28. *)
Definition resulting_v_in_27_28 fmt web3 (account hash : string) : Prop :=
  forall rs ss d1 d2,
    String.length rs = 64%nat -> String.length ss = 64%nat ->
    is_hex rs = true -> is_hex ss = true ->
    is_hex_digit d1 = true -> is_hex_digit d2 = true ->
    eth_sign web3 hash account
    = Success ("0x" +:+ rs +:+ ss +:+ String d1 (String d2 "")) ->
    exists sg,
      outcome (sign fmt web3 account hash) = Resolved (SignResult sg) /\
      (Sig.v sg = JS.Num 27 \/ Sig.v sg = JS.Num 28).



(** ** The generic chain, in the specification's words

    Section 4.3: run the strategies in their fixed order, stop at the
    first that reports Verified and accept; a strategy that ends otherwise
    (a mismatch, or an error of its provider call) lets the next one run;
    when none is left, reject with [reason]. *)
Fixpoint first_verified (sig reason : string) (chain : list (Async Valid))
    : Async PersonalSignResponse :=
  match chain with
  | [] => resolve (ErrorText reason)
  | strategy :: rest =>
      valid <- await strategy ;;
      if valid_result valid then resolve (SigOf sig)
      else first_verified sig reason rest
  end.

(** The events of the runs in [chain], one run after the other. *)
Definition traces (chain : list (Async Valid)) : list Event :=
  concat (map trace chain).

(** ** Facts on the string operations *)

Section StringFacts.

Lemma substring_0_append (a b : string) :
  String.substring 0 (String.length a) (a +:+ b) = a.
Proof.
  induction a as [|c a IH]; simpl.
  - destruct b; reflexivity.
  - now rewrite IH.
Qed.

Lemma substring_skip_append (a b : string) (n m : nat) :
  String.substring (String.length a + n) m (a +:+ b) = String.substring n m b.
Proof.
  induction a as [|c a IH]; simpl; [reflexivity | apply IH].
Qed.

Lemma substring_whole (a : string) :
  String.substring 0 (String.length a) a = a.
Proof.
  induction a as [|c a IH]; simpl; [reflexivity | now rewrite IH].
Qed.

Lemma length_append (a b : string) :
  String.length (a +:+ b) = (String.length a + String.length b)%nat.
Proof.
  induction a as [|c a IH]; simpl; [reflexivity | now rewrite IH].
Qed.

(** A hex string does not start with [0x]: [x] is no hex digit. *)
Lemma is_hex_no_prefix (s : string) :
  is_hex s = true -> String.prefix "0x" s = false.
Proof.
  intros H. destruct (String.prefix "0x" s) eqn:E; [|reflexivity].
  apply prefix_correct in E.
  destruct s as [|c1 [|c2 s]]; try discriminate E.
  cbn in E. injection E as _ ->.
  cbn in H. apply andb_prop in H as [_ H]. apply andb_prop in H as [H _].
  discriminate H.
Qed.

(** [indexOf] finds the first occurrence: if [t] stands right after
    [pre] and nowhere before, the index is the length of [pre]. *)
Lemma indexOf_first (pre t post : string) :
  t <> "" ->
  (forall k, (k < String.length pre)%nat ->
     String.substring k (String.length t) (pre +:+ t +:+ post) <> t) ->
  JS.indexOf (pre +:+ t +:+ post) t = Z.of_nat (String.length pre).
Proof.
  intros Hne Hfirst. unfold JS.indexOf.
  assert (Hat : String.substring (String.length pre) (String.length t)
                  (pre +:+ t +:+ post) = t).
  { rewrite <- (Nat.add_0_r (String.length pre)).
    rewrite substring_skip_append. apply substring_0_append. }
  destruct (String.index 0 t (pre +:+ t +:+ post)) as [m|] eqn:E.
  - f_equal.
    pose proof (index_correct1 _ _ _ _ E) as H1.
    pose proof (index_correct2 _ _ _ _ E) as H2.
    destruct (Nat.lt_trichotomy m (String.length pre)) as [Hlt|[Heq|Hgt]].
    + exfalso. exact (Hfirst m Hlt H1).
    + exact Heq.
    + exfalso. apply (H2 (String.length pre)); [lia | exact Hgt | exact Hat].
  - exfalso.
    apply (index_correct3 _ (String.length pre) _ _ E Hne); [lia | exact Hat].
Qed.

(** [s.substring(0, n)] for an [n] within the string. *)
Lemma substring_0_prefix (pre rest : string) :
  JS.substring 0 (Z.of_nat (String.length pre)) (pre +:+ rest) = pre.
Proof.
  unfold JS.substring. rewrite length_append.
  replace (Z.min (Z.max 0 0) _) with 0 by lia.
  replace (Z.min (Z.max (Z.of_nat (String.length pre)) 0) _)
    with (Z.of_nat (String.length pre)) by lia.
  replace (Z.min 0 (Z.of_nat (String.length pre))) with 0 by lia.
  replace (Z.max 0 (Z.of_nat (String.length pre)))
    with (Z.of_nat (String.length pre)) by lia.
  rewrite Z.sub_0_r, Nat2Z.id. simpl Z.to_nat.
  apply substring_0_append.
Qed.

Lemma before_marker_first (pre post : string) :
  (forall k, (k < String.length pre)%nat ->
     String.substring k 4 (pre +:+ " at " +:+ post) <> " at ") ->
  before_marker (pre +:+ " at " +:+ post) = pre.
Proof.
  intros Hfirst. unfold before_marker.
  rewrite (indexOf_first pre " at " post); [|discriminate|exact Hfirst].
  apply substring_0_prefix.
Qed.

End StringFacts.

(** ** Facts on number arithmetic *)

Section NumberFacts.

(** Integers up to 2^53 in magnitude are doubles: arithmetic that stays
    within them is exact. *)
Lemma round_to_double_exact (z : Z) :
  Z.abs z <= 2 ^ 53 -> JS.round_to_double z = JS.Num z.
Proof.
  intros H. unfold JS.round_to_double.
  destruct (Z.abs z <? 2 ^ 53) eqn:E; [reflexivity|].
  apply Z.ltb_ge in E.
  assert (Hz : z = 2 ^ 53 \/ z = - 2 ^ 53) by lia.
  destruct Hz as [-> | ->]; vm_compute; reflexivity.
Qed.

Lemma add_exact (a b : Z) :
  Z.abs (a + b) <= 2 ^ 53 -> JS.add (JS.Num a) (JS.Num b) = JS.Num (a + b).
Proof. apply round_to_double_exact. Qed.



End NumberFacts.

(** ** Facts on promises and on the chain *)

Section ChainFacts.

Lemma entered_app (tr1 tr2 : list Event) :
  entered (tr1 ++ tr2) = (entered tr1 ++ entered tr2)%list.
Proof.
  induction tr1 as [|[] tr1 IH]; simpl; rewrite ?IH; reflexivity.
Qed.

Lemma requests_app (tr1 tr2 : list Event) :
  requests (tr1 ++ tr2) = (requests tr1 ++ requests tr2)%list.
Proof.
  induction tr1 as [|[] tr1 IH]; simpl; rewrite ?IH; reflexivity.
Qed.

(** A chain whose runs all end without a verification rejects, after all
    of them ran. *)
Lemma first_verified_exhausted sig reason chain :
  Forall not_verified chain ->
  first_verified sig reason chain
  = (traces chain, Resolved (ErrorText reason)).
Proof.
  induction 1 as [|[tr st] chain (valid & Hst & Hv) _ IH]; [reflexivity|].
  cbn in Hst. subst st. cbn. rewrite Hv, IH. cbn. reflexivity.
Qed.

(** The first verification accepts, and nothing after it runs. *)
Lemma first_verified_hit sig reason before strategy after :
  Forall not_verified before ->
  verified strategy ->
  first_verified sig reason (before ++ strategy :: after)
  = (traces (before ++ [strategy]), Resolved (SigOf sig)).
Proof.
  intros Hbefore (valid & Hst & Hv).
  induction Hbefore as [|[tr st] before (valid' & Hst' & Hv') _ IH].
  - destruct strategy as [tr st]. cbn in Hst. subst st. cbn. rewrite Hv.
    cbn. now rewrite !app_nil_r.
  - cbn in Hst'. subst st. cbn. rewrite Hv'. cbn in IH. rewrite IH.
    reflexivity.
Qed.

(** Whatever the runs do, those that ran are an initial part of the
    chain. *)
Lemma first_verified_prefix sig reason chain :
  exists n, trace (first_verified sig reason chain) = traces (take n chain).
Proof.
  induction chain as [|[tr st] chain [n IH]].
  - exists 0%nat. reflexivity.
  - destruct st as [valid| |].
    + cbn. destruct (valid_result valid).
      * exists 1%nat. cbn. now rewrite !app_nil_r.
      * exists (S n). destruct (first_verified sig reason chain) as [tr' st'].
        cbn in *. now rewrite IH.
    + exists 1%nat. cbn. now rewrite app_nil_r.
    + exists 1%nat. cbn. now rewrite app_nil_r.
Qed.

End ChainFacts.

(** ** The orchestrator, [personalSign] *)

Section Orchestrator.

Context (fmt : Formatter) (util : EthUtil) (abi : ContractWallet)
        (window : Window) (web3 : Web3).

(** Each verification function marks its own entry, once. *)
Lemma ecRecover_entered account msg sig :
  entered (trace (ecRecover web3 account msg sig)) = [fn_ecRecover].
Proof.
  unfold ecRecover, request.
  destruct (personal_ecRecover web3 msg sig); reflexivity.
Qed.

Lemma contractWalletValidate_entered account msg sig :
  entered (trace (contractWalletValidate fmt util abi web3 account msg sig))
  = [fn_contractWalletValidate].
Proof.
  unfold contractWalletValidate, request.
  destruct (eth_call web3 account _); reflexivity.
Qed.

Lemma contractWalletValidate2_entered account msg sig :
  entered (trace (contractWalletValidate2 fmt util abi web3 account msg sig))
  = [fn_contractWalletValidate2].
Proof.
  unfold contractWalletValidate2, request.
  destruct (eth_call web3 account _); reflexivity.
Qed.

Lemma authereumValid_entered account msg sig :
  entered (trace (authereumValid fmt abi web3 account msg sig))
  = [fn_authereumValid].
Proof.
  unfold authereumValid, request.
  destruct (eth_call web3 account _); reflexivity.
Qed.

Lemma mykeyWalletValid_trace account msg sig :
  trace (mykeyWalletValid fmt util abi web3 account msg sig)
  = [Enter fn_mykeyWalletValid;
     EthCall myKeyContract
       (encodeInputs abi "getKeyData"
          [("_account", JS.Str account); ("_index", JS.Number (JS.Num 3))])].
Proof.
  unfold mykeyWalletValid, request.
  destruct (eth_call web3 myKeyContract _); cbn; [reflexivity|].
  destruct (fromRpcSig util sig); cbn; [|reflexivity].
  destruct (addHexPrefix fmt _); cbn; [|reflexivity].
  destruct (ecrecover util _ _ _ _); reflexivity.
Qed.

Lemma walletLinkValid_trace account msg sig :
  trace (walletLinkValid fmt util account msg sig) = [Enter fn_walletLinkValid].
Proof.
  unfold walletLinkValid.
  destruct (fromRpcSig util sig); cbn; [|reflexivity].
  destruct (ecrecover util _ _ _ _); reflexivity.
Qed.

Lemma generic_chain_entered account msg sig :
  map (fun run => entered (trace run))
      (generic_chain fmt util abi web3 account msg sig)
  = map (fun fn => [fn]) generic_order.
Proof.
  unfold generic_chain. cbn [map].
  rewrite ecRecover_entered, contractWalletValidate_entered,
    contractWalletValidate2_entered, mykeyWalletValid_trace.
  reflexivity.
Qed.

Lemma entered_traces_take n account msg sig :
  entered (traces (take n (generic_chain fmt util abi web3 account msg sig)))
  = take n generic_order.
Proof.
  pose proof (generic_chain_entered account msg sig) as H.
  unfold generic_chain in *. cbn [map] in H.
  injection H as H1 H2 H3 H4.
  unfold traces.
  unfold generic_order.
  destruct n as [|[|[|[|n]]]]; cbn [take map concat];
    rewrite ?take_nil, ?entered_app, ?H1, ?H2, ?H3, ?H4; reflexivity.
Qed.

(** A sign error ends the run at once, with the provider's error as it
    came. *)
Lemma personalSign_failure account msg walletType err :
  personal_sign web3 msg account "" = Failure err ->
  personalSign fmt util abi window web3 account msg walletType
  = ([PersonalSign msg account ""], Resolved (ErrorObject err)).
Proof.
  intros H. unfold personalSign, request. rewrite H. reflexivity.
Qed.

Lemma personalSign_imToken account msg walletType sig :
  personal_sign web3 msg account "" = Success sig ->
  is_imToken window = true ->
  personalSign fmt util abi window web3 account msg walletType
  = ([PersonalSign msg account ""], Resolved (SigOf sig)).
Proof.
  intros H Him. unfold personalSign, request. rewrite H, Him. reflexivity.
Qed.

(** Without a recognised hint (and outside imToken) [personalSign] is the
    specification's chain over the four functions, run inside the async
    callback of the sign request. *)
Lemma personalSign_generic account msg walletType sig :
  personal_sign web3 msg account "" = Success sig ->
  is_imToken window = false ->
  JS.strict_eq_string walletType "WalletLink" = false ->
  JS.strict_eq_string walletType "Authereum" = false ->
  personalSign fmt util abi window web3 account msg walletType
  = (emit (PersonalSign msg account "") ;;;
     async_callback
       (first_verified sig "invalid sig"
          (generic_chain fmt util abi web3 account msg sig))).
Proof.
  intros H Him Hwl Hau. unfold personalSign, request.
  rewrite H, Him, Hwl, Hau. reflexivity.
Qed.

Lemma personalSign_walletLink account msg sig :
  personal_sign web3 msg account "" = Success sig ->
  is_imToken window = false ->
  personalSign fmt util abi window web3 account msg (JS.Str "WalletLink")
  = (emit (PersonalSign msg account "") ;;;
     async_callback
       (valid <- await walletLinkValid fmt util account msg sig ;;
        if valid_result valid then resolve (SigOf sig)
        else resolve (ErrorText "Failed to valid using WalletLink"))).
Proof.
  intros H Him. unfold personalSign, request. rewrite H, Him. reflexivity.
Qed.

Lemma personalSign_authereum account msg sig :
  personal_sign web3 msg account "" = Success sig ->
  is_imToken window = false ->
  personalSign fmt util abi window web3 account msg (JS.Str "Authereum")
  = (emit (PersonalSign msg account "") ;;;
     async_callback
       (valid <- await authereumValid fmt abi web3 account msg sig ;;
        if valid_result valid then resolve (SigOf sig)
        else resolve (ErrorText "invalid sig using Authereum"))).
Proof.
  intros H Him. unfold personalSign, request. rewrite H, Him. reflexivity.
Qed.

End Orchestrator.

(** ** The generic chain (C1) *)

(** A run of the generic chain whose own provider request failed ends
    without a verification. *)
Lemma failed_request_not_verified fmt util abi web3 account msg sig run :
  In run (generic_chain fmt util abi web3 account msg sig) ->
  (forall m s err, In (PersonalEcRecover m s) (trace run) ->
     personal_ecRecover web3 m s = Failure err -> not_verified run) /\
  (forall to data err, In (EthCall to data) (trace run) ->
     eth_call web3 to data = Failure err -> not_verified run).
Proof.
  unfold generic_chain. intros [<-|[<-|[<-|[<-|[]]]]];
    unfold ecRecover, contractWalletValidate, contractWalletValidate2,
      mykeyWalletValid, request.
  - split; [intros m s err Hin Herr | intros to data err Hin Herr].
    + destruct (personal_ecRecover web3 msg sig) as [e|a] eqn:E;
        cbn in Hin; destruct Hin as [|[Hin|[]]]; try discriminate;
        injection Hin as <- <-; [|congruence].
      exists (ValidError e). split; reflexivity.
    + destruct (personal_ecRecover web3 msg sig);
        cbn in Hin; destruct Hin as [|[|[]]]; discriminate.
  - split; [intros m s err Hin Herr | intros to data err Hin Herr].
    + destruct (eth_call web3 account _);
        cbn in Hin; destruct Hin as [|[|[]]]; discriminate.
    + destruct (eth_call web3 account _) as [e|a] eqn:E;
        cbn in Hin; destruct Hin as [|[Hin|[]]]; try discriminate;
        injection Hin as <- <-; [|congruence].
      exists (ValidError e). split; reflexivity.
  - split; [intros m s err Hin Herr | intros to data err Hin Herr].
    + destruct (eth_call web3 account _);
        cbn in Hin; destruct Hin as [|[|[]]]; discriminate.
    + destruct (eth_call web3 account _) as [e|a] eqn:E;
        cbn in Hin; destruct Hin as [|[Hin|[]]]; try discriminate;
        injection Hin as <- <-; [|congruence].
      exists (ValidError e). split; reflexivity.
  - split; [intros m s err Hin Herr | intros to data err Hin Herr].
    + pose proof (mykeyWalletValid_trace fmt util abi web3 account msg sig)
        as Htr. unfold mykeyWalletValid, request in Htr. rewrite Htr in Hin.
      cbn in Hin; destruct Hin as [|[|[]]]; discriminate.
    + pose proof (mykeyWalletValid_trace fmt util abi web3 account msg sig)
        as Htr. unfold mykeyWalletValid, request in Htr. rewrite Htr in Hin.
      cbn in Hin; destruct Hin as [|[Hin|[]]]; try discriminate.
      injection Hin as <- <-. rewrite Herr.
      exists (ValidError err). split; reflexivity.
Qed.

(** C1 (amended).  With a successful sign call, outside imToken and with
    a hint that is neither WalletLink nor Authereum, [personalSign] runs
    ecRecover, contractWalletValidate, contractWalletValidate2 and
    mykeyWalletValid in this order; the first run that resolves with a
    true result accepts the signature and no later function runs; a run
    whose provider request failed counts as not verified and the next one
    runs; when all four end without a verification the promise resolves
    with the error text "invalid sig". *)
Theorem generic_chain_first_verified_wins
    fmt util abi window web3 account msg walletType sig :
  personal_sign web3 msg account "" = Success sig ->
  is_imToken window = false ->
  JS.strict_eq_string walletType "WalletLink" = false ->
  JS.strict_eq_string walletType "Authereum" = false ->
  let chain := generic_chain fmt util abi web3 account msg sig in
  let p := personalSign fmt util abi window web3 account msg walletType in
  (exists n, entered (trace p) = take n generic_order) /\
  (forall i run,
     chain !! i = Some run -> verified run ->
     (forall j earlier, (j < i)%nat -> chain !! j = Some earlier ->
        not_verified earlier) ->
     outcome p = Resolved (SigOf sig) /\
     trace p = PersonalSign msg account "" :: traces (take (S i) chain) /\
     entered (trace p) = take (S i) generic_order) /\
  (forall run, In run chain ->
     (forall m s err, In (PersonalEcRecover m s) (trace run) ->
        personal_ecRecover web3 m s = Failure err -> not_verified run) /\
     (forall to data err, In (EthCall to data) (trace run) ->
        eth_call web3 to data = Failure err -> not_verified run)) /\
  (Forall not_verified chain ->
     outcome p = Resolved (ErrorText "invalid sig") /\
     trace p = PersonalSign msg account "" :: traces chain /\
     entered (trace p) = generic_order).
Proof.
  intros Hsign Him Hwl Hau chain p.
  assert (Hp : p = (emit (PersonalSign msg account "") ;;;
                    async_callback (first_verified sig "invalid sig" chain)))
    by (apply personalSign_generic; assumption).
  split; [|split; [|split]].
  - destruct (first_verified_prefix sig "invalid sig" chain) as [n Hn].
    exists n. rewrite Hp.
    unfold trace in *.
    destruct (first_verified sig "invalid sig" chain) as [tr [| |]];
      cbn [await emit async_callback fst snd app entered] in *;
      rewrite Hn; apply entered_traces_take.
  - intros i run Hi Hver Hbefore.
    assert (Hsplit : chain = (take i chain ++ run :: drop (S i) chain)%list)
      by (symmetry; apply take_drop_middle; exact Hi).
    assert (Hpre : Forall not_verified (take i chain)).
    { apply Forall_lookup_2. intros j earlier Hj.
      apply lookup_take_Some in Hj as [Hj Hlt]. eapply Hbefore; eassumption. }
    assert (Htake : (take i chain ++ [run])%list = take (S i) chain)
      by (symmetry; apply take_S_r; exact Hi).
    pose proof (first_verified_hit sig "invalid sig" _ _ (drop (S i) chain)
                  Hpre Hver) as Hhit.
    rewrite <- Hsplit, Htake in Hhit.
    rewrite Hp, Hhit. unfold trace, outcome.
    cbn [await emit async_callback fst snd app entered]. repeat split.
    apply entered_traces_take.
  - intros run Hin. eapply failed_request_not_verified; exact Hin.
  - intros Hall. rewrite Hp, (first_verified_exhausted _ _ _ Hall).
    unfold trace, outcome.
    cbn [await emit async_callback fst snd app entered]. repeat split.
    rewrite <- (firstn_all chain) at 1.
    change (length chain) with 4%nat. apply entered_traces_take.
Qed.

(** A contract wallet that implements only the bytes32 variant: the
    remote recovery names another address, the first contract call
    reverts, the second one verifies, and the registry is never asked. *)
Lemma generic_chain_first_verified_wins_witness :
  let web3 := Sample.provider (Success (Sample.rpc_sig "1b"))
                (Success "0x0000") Sample.bytes32_wallet in
  let p := personalSign Sample.fmt Sample.util Sample.abi Sample.plain_window
             web3 Sample.account "hello" JS.Undefined in
  outcome p = Resolved (SigOf (Sample.rpc_sig "1b")) /\
  entered (trace p)
  = [PlainRecover; ContractWalletBytesBytes; ContractWalletBytes32Bytes].
Proof.
  intros web3 p.
  destruct (generic_chain_first_verified_wins
              Sample.fmt Sample.util Sample.abi Sample.plain_window web3
              Sample.account "hello" JS.Undefined (Sample.rpc_sig "1b")
              eq_refl eq_refl eq_refl eq_refl) as (_ & Hhit & _).
  destruct (Hhit 2%nat _ eq_refl) as (Hout & _ & Hent).
  - exists (ValidResult true). split; reflexivity.
  - intros j earlier Hj Hlook.
    destruct j as [|[|j]]; [| |lia]; injection Hlook as <-.
    + exists (ValidResult false). split; reflexivity.
    + exists (ValidError Sample.reverted). split; reflexivity.
  - split; [exact Hout | exact Hent].
Defined.

(** The chain exhausted on a plain account whose signature does not
    match: the rejection text is "invalid sig", not "invalid signature". *)
Lemma generic_chain_exhausted_reason_counterexample :
  ~ exhausted_rejects_with Sample.fmt Sample.util Sample.abi
      Sample.plain_window
      (Sample.provider (Success (Sample.rpc_sig "1b")) (Success "0x0000")
         Sample.no_contract)
      Sample.account "hello" JS.Undefined "invalid signature".
Proof.
  intros H.
  specialize (H (Sample.rpc_sig "1b") eq_refl eq_refl eq_refl eq_refl).
  assert (Hall : Forall not_verified
            (generic_chain Sample.fmt Sample.util Sample.abi
               (Sample.provider (Success (Sample.rpc_sig "1b"))
                  (Success "0x0000") Sample.no_contract)
               Sample.account "hello" (Sample.rpc_sig "1b"))).
  { repeat constructor.
    - exists (ValidResult false). split; reflexivity.
    - exists (ValidError Sample.reverted). split; reflexivity.
    - exists (ValidError Sample.reverted). split; reflexivity.
    - exists (ValidError Sample.reverted). split; reflexivity. }
  specialize (H Hall). vm_compute in H. discriminate H.
Qed.

(** ** The imToken exception (C2) *)

(** C2.  Through an imToken provider whose sign call succeeds,
    [personalSign] resolves with the signature whatever the hint, the
    account and the signature are; the sign request is the only event of
    the run, so no verification function is entered and no further
    request is sent. *)
Theorem imToken_accepts_unconditionally
    fmt util abi window web3 account msg walletType sig :
  personal_sign web3 msg account "" = Success sig ->
  is_imToken window = true ->
  let p := personalSign fmt util abi window web3 account msg walletType in
  outcome p = Resolved (SigOf sig) /\
  trace p = [PersonalSign msg account ""] /\
  entered (trace p) = [].
Proof.
  intros Hsign Him p. subst p.
  rewrite (personalSign_imToken fmt util abi window web3 account msg
             walletType sig Hsign Him).
  repeat split.
Qed.

(** In an imToken browser a string that is no signature at all is
    accepted, under any hint. *)
Lemma imToken_accepts_unconditionally_witness :
  let web3 := Sample.provider (Success "0xdead") (Failure Sample.reverted)
                Sample.no_contract in
  outcome (personalSign Sample.fmt Sample.util Sample.abi
             Sample.imToken_window web3 Sample.account "hello"
             (JS.Str "WalletLink"))
  = Resolved (SigOf "0xdead").
Proof.
  intros web3.
  exact (proj1 (imToken_accepts_unconditionally
                  Sample.fmt Sample.util Sample.abi Sample.imToken_window
                  web3 Sample.account "hello" (JS.Str "WalletLink") "0xdead"
                  eq_refl eq_refl)).
Defined.

(** ** Sign errors (C4) *)

(** C4 (amended).  When the personal-sign request reports an error,
    [personalSign] resolves at once with that error as the provider gave
    it, untrimmed, and enters no verification function.  The trimming is
    done by the [sign] primitive: when its request reports an error whose
    message contains " at ", [sign] resolves with the text before the
    first " at " as the error message. *)
Theorem sign_error_short_circuits fmt util abi window web3 account :
  (forall msg walletType err,
     personal_sign web3 msg account "" = Failure err ->
     let p := personalSign fmt util abi window web3 account msg walletType in
     outcome p = Resolved (ErrorObject err) /\
     trace p = [PersonalSign msg account ""] /\
     entered (trace p) = []) /\
  (forall hash err pre post,
     eth_sign web3 hash account = Failure err ->
     message err = pre +:+ " at " +:+ post ->
     (forall k, (k < String.length pre)%nat ->
        String.substring k 4 (message err) <> " at ") ->
     sign fmt web3 account hash
     = ([EthSign hash account], Resolved (SignError pre))).
Proof.
  split.
  - intros msg walletType err Hsign p. subst p.
    rewrite (personalSign_failure fmt util abi window web3 account msg
               walletType err Hsign).
    repeat split.
  - intros hash err pre post Hsign Hmsg Hfirst.
    unfold sign, request. rewrite Hsign. cbn.
    rewrite Hmsg in *. fold (before_marker (pre +:+ " at " +:+ post)).
    now rewrite before_marker_first.
Qed.

Lemma sign_error_short_circuits_witness :
  let web3 := Sample.provider (Failure Sample.refused)
                (Failure Sample.reverted) Sample.no_contract in
  outcome (personalSign Sample.fmt Sample.util Sample.abi
             Sample.plain_window web3 Sample.account "hello" JS.Undefined)
  = Resolved (ErrorObject Sample.refused) /\
  sign Sample.fmt web3 Sample.account "0x00"
  = ([EthSign "0x00" Sample.account],
     Resolved (SignError "User denied message signature.")).
Proof.
  intros web3.
  destruct (sign_error_short_circuits Sample.fmt Sample.util Sample.abi
              Sample.plain_window web3 Sample.account) as [Hp Hs].
  split.
  - exact (proj1 (Hp "hello" JS.Undefined Sample.refused eq_refl)).
  - apply (Hs "0x00" Sample.refused "User denied message signature."
              "Object.sign (inpage.js:1)" eq_refl eq_refl).
    intros k Hk.
    do 30 (destruct k as [|k]; [vm_compute; discriminate|]).
    cbn in Hk. lia.
Defined.

(** The provider refuses with a message that carries a location:
    [personalSign] surfaces the whole message, location included. *)
Lemma sign_error_surfaced_trimmed_counterexample :
  ~ sign_error_surfaced_trimmed Sample.fmt Sample.util Sample.abi
      Sample.plain_window
      (Sample.provider (Failure Sample.refused) (Failure Sample.reverted)
         Sample.no_contract)
      Sample.account "hello" JS.Undefined.
Proof.
  intros H. destruct (H Sample.refused eq_refl) as (_ & resp & Hout & Hmsg).
  vm_compute in Hout. injection Hout as <-.
  vm_compute in Hmsg. discriminate Hmsg.
Qed.

(** ** The split of an RPC signature (C5) *)

(** The three slices of [sign] on a string laid out as [0x], 64
    characters, 64 characters and a rest. *)
Lemma slice_rpc_layout (rs ss vs : string) :
  String.length rs = 64%nat -> String.length ss = 64%nat ->
  JS.slice 0 66 ("0x" +:+ rs +:+ ss +:+ vs) = "0x" +:+ rs /\
  JS.slice 66 130 ("0x" +:+ rs +:+ ss +:+ vs) = ss /\
  (String.length vs = 2%nat ->
   JS.slice 130 132 ("0x" +:+ rs +:+ ss +:+ vs) = vs).
Proof.
  intros HR HS. unfold JS.slice. repeat split.
  - change (String.substring 0 (66 - 0) ("0x" +:+ rs +:+ ss +:+ vs))
      with ("0x" +:+ String.substring 0 64 (rs +:+ ss +:+ vs)).
    rewrite <- HR. now rewrite substring_0_append.
  - change (String.substring 66 (130 - 66) ("0x" +:+ rs +:+ ss +:+ vs))
      with (String.substring (64 + 0) 64 (rs +:+ ss +:+ vs)).
    rewrite <- HR at 1. rewrite substring_skip_append, <- HS.
    apply substring_0_append.
  - intros HV.
    change (String.substring 130 (132 - 130) ("0x" +:+ rs +:+ ss +:+ vs))
      with (String.substring (64 + 64) 2 (rs +:+ ss +:+ vs)).
    rewrite <- HR at 1. rewrite substring_skip_append.
    rewrite <- (Nat.add_0_r 64), <- HS, substring_skip_append.
    rewrite <- HV. apply substring_whole.
Qed.

(** [sign] on a well-formed signature string. *)
Lemma sign_rpc_signature fmt web3 account hash rs ss d1 d2 :
  FormatterLaws fmt ->
  String.length rs = 64%nat -> String.length ss = 64%nat ->
  is_hex ss = true -> is_hex_digit d1 = true -> is_hex_digit d2 = true ->
  eth_sign web3 hash account
  = Success ("0x" +:+ rs +:+ ss +:+ String d1 (String d2 "")) ->
  sign fmt web3 account hash
  = ([EthSign hash account],
     Resolved (SignResult {| Sig.r := "0x" +:+ rs;
                             Sig.s := "0x" +:+ ss;
                             Sig.v := JS.Num (normalized_v (hex_byte d1 d2)) |})).
Proof.
  intros [Hprefix Hnum] HR HS HhexS Hd1 Hd2 Hsign.
  destruct (slice_rpc_layout rs ss (String d1 (String d2 "")) HR HS)
    as (Hr & Hs & Hv).
  specialize (Hv eq_refl).
  unfold sign, request. rewrite Hsign.
  cbn [await emit callback]. rewrite Hr, Hs, Hv, !Hprefix.
  rewrite (is_hex_no_prefix ss HhexS).
  rewrite (is_hex_no_prefix (String d1 (String d2 ""))) by
    (cbn; now rewrite Hd1, Hd2).
  cbn [JS.sync_bind].
  change ("0x" +:+ String d1 (String d2 ""))
    with (String "0" (String "x" (String d1 (String d2 "")))).
  rewrite (Hnum d1 d2 Hd1 Hd2). unfold normalized_v, JS.strict_eq_lit.
  destruct ((hex_byte d1 d2 =? 0) || (hex_byte d1 d2 =? 1)) eqn:E;
    [|reflexivity].
  rewrite add_exact; [reflexivity|].
  apply orb_true_iff in E as [E|E]; apply Z.eqb_eq in E; rewrite E;
    vm_compute; discriminate.
Qed.

Lemma sample_formatter_laws : FormatterLaws Sample.fmt.
Proof.
  split.
  - reflexivity.
  - intros d1 d2 H1 H2. cbn. now rewrite H1, H2.
Qed.

(** C5 (amended).  On a raw RPC signature string -- [0x], 64 hex digits of r, 64
    of s, two of v -- [sign] resolves with r = the first 32 bytes, s = the
    next 32, and v = the final byte, plus 27 exactly when that byte is 0
    or 1.  A byte in {0,1,27,28} hence gives v in {27,28}, and a
    signature arriving with v in {0,1} gives the same (r,s,v) as the same
    signature carrying v + 27. *)
Theorem sign_splits_and_normalizes_v fmt web3 account hash rs ss d1 d2 :
  FormatterLaws fmt ->
  String.length rs = 64%nat -> String.length ss = 64%nat ->
  is_hex ss = true -> is_hex_digit d1 = true -> is_hex_digit d2 = true ->
  eth_sign web3 hash account
  = Success ("0x" +:+ rs +:+ ss +:+ String d1 (String d2 "")) ->
  let b := hex_byte d1 d2 in
  let v := if (b =? 0) || (b =? 1) then b + 27 else b in
  sign fmt web3 account hash
  = ([EthSign hash account],
     Resolved (SignResult {| Sig.r := "0x" +:+ rs;
                             Sig.s := "0x" +:+ ss;
                             Sig.v := JS.Num v |})) /\
  (b = 0 \/ b = 1 \/ b = 27 \/ b = 28 -> v = 27 \/ v = 28) /\
  (forall web3' hash' e1 e2,
     is_hex_digit e1 = true -> is_hex_digit e2 = true ->
     eth_sign web3' hash' account
     = Success ("0x" +:+ rs +:+ ss +:+ String e1 (String e2 "")) ->
     b = 0 \/ b = 1 ->
     hex_byte e1 e2 = b + 27 ->
     outcome (sign fmt web3' account hash')
     = outcome (sign fmt web3 account hash)).
Proof.
  intros Hlaws HR HS HhexS Hd1 Hd2 Hsign b v.
  pose proof (sign_rpc_signature fmt web3 account hash rs ss d1 d2
                Hlaws HR HS HhexS Hd1 Hd2 Hsign) as Heq.
  split; [exact Heq|split].
  - subst v. intros [Hb|[Hb|[Hb|Hb]]]; rewrite Hb; cbn; lia.
  - intros web3' hash' e1 e2 He1 He2 Hsign' Hb Hbyte.
    rewrite Heq,
      (sign_rpc_signature fmt web3' account hash' rs ss e1 e2
         Hlaws HR HS HhexS He1 He2 Hsign').
    cbn. rewrite Hbyte. fold b. unfold normalized_v.
    destruct Hb as [Hb|Hb]; rewrite Hb; reflexivity.
Qed.

(** A Ledger signature ending in [00] and the same signature ending in
    [1b] both give v = 27. *)
Lemma sign_splits_and_normalizes_v_witness :
  let ledger := Sample.provider (Success (Sample.rpc_sig "00"))
                  (Failure Sample.reverted) Sample.no_contract in
  let other := Sample.provider (Success (Sample.rpc_sig "1b"))
                 (Failure Sample.reverted) Sample.no_contract in
  outcome (sign Sample.fmt ledger Sample.account "0x00")
  = Resolved (SignResult {| Sig.r := "0x" +:+ Sample.r64;
                            Sig.s := "0x" +:+ Sample.s64;
                            Sig.v := JS.Num 27 |}) /\
  outcome (sign Sample.fmt other Sample.account "0x00")
  = outcome (sign Sample.fmt ledger Sample.account "0x00").
Proof.
  intros ledger other.
  destruct (sign_splits_and_normalizes_v Sample.fmt ledger Sample.account
              "0x00" Sample.r64 Sample.s64 "0"%char "0"%char
              sample_formatter_laws eq_refl eq_refl eq_refl eq_refl eq_refl
              eq_refl) as (Heq & _ & Hsame).
  split.
  - rewrite Heq. reflexivity.
  - apply (Hsame other "0x00" "1"%char "b"%char eq_refl eq_refl eq_refl).
    + left. reflexivity.
    + reflexivity.
Defined.

(** A delivered signature whose final byte is [02]: v stays 2. *)
Lemma resulting_v_in_27_28_counterexample :
  ~ resulting_v_in_27_28 Sample.fmt
      (Sample.provider (Success (Sample.rpc_sig "02"))
         (Failure Sample.reverted) Sample.no_contract)
      Sample.account "0x00".
Proof.
  intros H.
  destruct (H Sample.r64 Sample.s64 "0"%char "2"%char
              eq_refl eq_refl eq_refl eq_refl eq_refl eq_refl eq_refl)
    as (sg & Hout & Hv).
  vm_compute in Hout. injection Hout as <-.
  destruct Hv as [Hv|Hv]; discriminate Hv.
Qed.

(** ** The registry lookup (C6) *)

Lemma valid_resolved_true (st : Settle Valid) :
  (exists valid, st = Resolved valid /\ valid_result valid = true) <->
  st = Resolved (ValidResult true).
Proof.
  split.
  - intros ([[]|] & -> & Hv); cbn in Hv; congruence.
  - intros ->. exists (ValidResult true). split; reflexivity.
Qed.

(** C6.  [mykeyWalletValid] sends one request, whatever its arguments: a
    call to the fixed registry contract with [getKeyData] encoded on the
    account and the index 3.  It reports a verification exactly when that
    call succeeds and the address recovered from
    [hashPersonalMessage(keccak256(msg))] and the signature's (v, r, s)
    equals, up to letter case, the address the registry returned -- the
    account enters only as the argument of the lookup. *)
Theorem mykeyWalletValid_checks_registry_key fmt util abi web3 account msg sig :
  let data :=
    encodeInputs abi "getKeyData"
      [("_account", JS.Str account); ("_index", JS.Number (JS.Num 3))] in
  let hash :=
    hashPersonalMessage util (keccak256 util (toBuffer fmt (JS.Str msg))) in
  let run := mykeyWalletValid fmt util abi web3 account msg sig in
  trace run
  = [Enter MyKeyRegistryValid;
     EthCall "0xADc92d1fD878580579716d944eF3460E241604b7" data] /\
  (verified run <->
   exists res signature address pub,
     eth_call web3 "0xADc92d1fD878580579716d944eF3460E241604b7" data
     = Success res /\
     fromRpcSig util sig = JS.Returns signature /\
     addHexPrefix fmt (JS.first (decodeOutputs abi "getKeyData" res))
     = JS.Returns address /\
     ecrecover util hash (sig_v signature) (sig_r signature) (sig_s signature)
     = JS.Returns pub /\
     JS.toLowerCase (toHex fmt (pubToAddress util pub))
     = JS.toLowerCase address).
Proof.
  intros data hash run. split.
  - apply mykeyWalletValid_trace.
  - unfold verified. rewrite valid_resolved_true.
    subst run. unfold mykeyWalletValid, request, outcome.
    fold data. change myKeyContract
      with "0xADc92d1fD878580579716d944eF3460E241604b7".
    destruct (eth_call web3 _ data) as [err|res]; cbn.
    { split; [discriminate | intros (? & ? & ? & ? & ? & _); discriminate]. }
    destruct (fromRpcSig util sig) as [signature|e]; cbn.
    2: { split; [discriminate | intros (? & ? & ? & ? & _ & ? & _);
                                 discriminate]. }
    destruct (addHexPrefix fmt _) as [address|e] eqn:Haddr; cbn.
    2: { split; [discriminate | intros (? & ? & ? & ? & Hres & _ & ? & _)].
         injection Hres as <-. congruence. }
    fold hash.
    destruct (ecrecover util hash _ _ _) as [pub|e] eqn:Hrec; cbn.
    2: { split; [discriminate
                | intros (? & ? & ? & ? & _ & Hsig & _ & ? & _)].
         injection Hsig as <-. congruence. }
    split.
    + intros H. injection H as H. apply String.eqb_eq in H.
      exists res, signature, address, pub. repeat split; assumption.
    + intros (res' & signature' & address' & pub' & Hres & Hsig & Ha & Hp & Heq).
      injection Hres as <-. injection Hsig as <-.
      rewrite Haddr in Ha. injection Ha as <-.
      rewrite Hrec in Hp. injection Hp as <-.
      apply String.eqb_eq in Heq. now rewrite Heq.
Qed.

(** ** The WalletLink path (C7) *)

(** C7 (amended).  With the hint WalletLink, a successful sign call and a
    provider that is not imToken, [personalSign] enters only
    [walletLinkValid] and sends no request besides the sign request.  When
    the public key can be recovered from the signature and
    [hashPersonalMessage(msg)], the signature is accepted if the recovered
    address equals the account up to letter case, and rejected with
    'Failed to valid using WalletLink' otherwise. *)
Theorem walletLink_path_local_recovery
    fmt util abi window web3 account msg sig :
  personal_sign web3 msg account "" = Success sig ->
  is_imToken window = false ->
  let run := walletLinkValid fmt util account msg sig in
  let p := personalSign fmt util abi window web3 account msg
             (JS.Str "WalletLink") in
  trace p = [PersonalSign msg account ""; Enter WalletLinkRecover] /\
  (forall signature pub,
     fromRpcSig util sig = JS.Returns signature ->
     ecrecover util (hashPersonalMessage util (toBuffer fmt (JS.Str msg)))
       (sig_v signature) (sig_r signature) (sig_s signature)
     = JS.Returns pub ->
     let matches :=
       String.eqb (JS.toLowerCase (toHex fmt (pubToAddress util pub)))
                  (JS.toLowerCase account) in
     outcome run = Resolved (ValidResult matches) /\
     outcome p
     = Resolved (if matches then SigOf sig
                 else ErrorText "Failed to valid using WalletLink")).
Proof.
  intros Hsign Him run p.
  assert (Hp : p = (emit (PersonalSign msg account "") ;;;
                    async_callback
                      (valid <- await run ;;
                       if valid_result valid then resolve (SigOf sig)
                       else resolve
                              (ErrorText "Failed to valid using WalletLink"))))
    by (apply personalSign_walletLink; assumption).
  split.
  - rewrite Hp. pose proof (walletLinkValid_trace fmt util account msg sig)
      as Htr. fold run in Htr. unfold trace in *.
    destruct run as [tr [valid| |]]; cbn in *; subst tr; try reflexivity.
    destruct (valid_result valid); reflexivity.
  - intros signature pub Hsig Hrec matches.
    assert (Hrun : run = ([Enter fn_walletLinkValid],
                          Resolved (ValidResult matches))).
    { subst run. unfold walletLinkValid. rewrite Hsig. cbn.
      rewrite Hrec. reflexivity. }
    rewrite Hp, Hrun. cbn. destruct matches; split; reflexivity.
Qed.

Lemma walletLink_path_local_recovery_witness :
  let web3 := Sample.provider (Success (Sample.rpc_sig "1b"))
                (Failure Sample.reverted) Sample.no_contract in
  let p := personalSign Sample.fmt Sample.util Sample.abi Sample.plain_window
             web3 Sample.r64 "hello" (JS.Str "WalletLink") in
  trace p = [PersonalSign "hello" Sample.r64 ""; Enter WalletLinkRecover] /\
  outcome p = Resolved (SigOf (Sample.rpc_sig "1b")).
Proof.
  intros web3 p.
  destruct (walletLink_path_local_recovery
              Sample.fmt Sample.util Sample.abi Sample.plain_window web3
              Sample.r64 "hello" (Sample.rpc_sig "1b") eq_refl eq_refl)
    as [Htr Hmatch].
  split; [exact Htr|].
  exact (proj2 (Hmatch _ _ eq_refl eq_refl)).
Defined.

(** The hint WalletLink in an imToken browser: [walletLinkValid] never
    runs. *)
Lemma walletLink_path_counterexample :
  ~ walletLink_path_as_stated Sample.fmt Sample.util Sample.abi
      Sample.imToken_window
      (Sample.provider (Success (Sample.rpc_sig "1b"))
         (Failure Sample.reverted) Sample.no_contract)
      Sample.account "hello".
Proof.
  intros H. destruct (H (Sample.rpc_sig "1b") eq_refl) as (Hent & _).
  vm_compute in Hent. discriminate Hent.
Qed.

(** ** The Authereum path (C8) *)

(** C8 (amended).  With the hint Authereum, a successful sign call and a
    provider that is not imToken, [personalSign] enters only
    [authereumValid], which sends one call to the account, with
    [isValidSignature(bytes,bytes)] encoded on the raw message bytes as
    [_data].  It reports a verification exactly when the call succeeds and
    the hex of its first decoded output equals the first ten characters
    (0x and four bytes) of the call data; then the signature is accepted,
    and otherwise it is rejected with 'invalid sig using Authereum'. *)
Theorem authereum_path_selector_echo
    fmt util abi window web3 account msg sig :
  personal_sign web3 msg account "" = Success sig ->
  is_imToken window = false ->
  let data :=
    encodeInputs abi "isValidSignature(bytes,bytes)"
      [("_data", JS.Buf (toBuffer fmt (JS.Str msg)));
       ("_signature", JS.Buf (toBuffer fmt (JS.Str sig)))] in
  let run := authereumValid fmt abi web3 account msg sig in
  let p := personalSign fmt util abi window web3 account msg
             (JS.Str "Authereum") in
  trace p = [PersonalSign msg account ""; Enter AuthereumValidate;
             EthCall account data] /\
  (verified run <->
   exists result,
     eth_call web3 account data = Success result /\
     toHex fmt (toBuffer fmt
       (JS.first (decodeOutputs abi "isValidSignature(bytes,bytes)" result)))
     = JS.slice 0 10 data) /\
  (verified run -> outcome p = Resolved (SigOf sig)) /\
  (~ verified run ->
   outcome p = Resolved (ErrorText "invalid sig using Authereum")).
Proof.
  intros Hsign Him data run p.
  assert (Hp : p = (emit (PersonalSign msg account "") ;;;
                    async_callback
                      (valid <- await run ;;
                       if valid_result valid then resolve (SigOf sig)
                       else resolve (ErrorText "invalid sig using Authereum"))))
    by (apply personalSign_authereum; assumption).
  assert (Hrun : exists valid,
             run = ([Enter fn_authereumValid; EthCall account data],
                    Resolved valid) /\
             (valid_result valid = true <->
              exists result,
                eth_call web3 account data = Success result /\
                toHex fmt (toBuffer fmt
                  (JS.first (decodeOutputs abi "isValidSignature(bytes,bytes)"
                               result)))
                = JS.slice 0 10 data)).
  { subst run. unfold authereumValid, request. fold data.
    destruct (eth_call web3 account data) as [err|result]; cbn.
    - exists (ValidError err). split; [reflexivity|]. cbn.
      split; [discriminate | intros (? & ? & _); discriminate].
    - eexists. split; [reflexivity|]. cbn. rewrite String.eqb_eq. split.
      + intros H. exists result. split; [reflexivity | exact H].
      + intros (result' & Hres & H). injection Hres as <-. exact H. }
  destruct Hrun as (valid & Hrun & Hiff).
  assert (Hver : verified run <-> valid_result valid = true).
  { unfold verified. rewrite Hrun. cbn. split.
    - intros (valid' & Heq & Hv). injection Heq as <-. exact Hv.
    - intros Hv. exists valid. split; [reflexivity | exact Hv]. }
  assert (Hout : outcome p
                 = Resolved (if valid_result valid then SigOf sig
                             else ErrorText "invalid sig using Authereum"))
    by (rewrite Hp, Hrun; cbn; destruct (valid_result valid); reflexivity).
  split; [rewrite Hp, Hrun; cbn; destruct (valid_result valid); reflexivity|].
  split; [rewrite Hver; exact Hiff|].
  rewrite Hout. split.
  - intros Hv. apply Hver in Hv. rewrite Hv. reflexivity.
  - intros Hv. destruct (valid_result valid) eqn:E; [|reflexivity].
    exfalso. apply Hv, Hver. reflexivity.
Qed.

(** A wallet at the account that echoes the selector: accepted. *)
Lemma authereum_path_selector_echo_witness :
  let web3 := Sample.provider (Success (Sample.rpc_sig "1b"))
                (Failure Sample.reverted) (fun _ _ => Success "0x1626ba7e") in
  outcome (personalSign Sample.fmt Sample.util Sample.abi Sample.plain_window
             web3 Sample.account "hello" (JS.Str "Authereum"))
  = Resolved (SigOf (Sample.rpc_sig "1b")).
Proof.
  intros web3.
  destruct (authereum_path_selector_echo
              Sample.fmt Sample.util Sample.abi Sample.plain_window web3
              Sample.account "hello" (Sample.rpc_sig "1b") eq_refl eq_refl)
    as (_ & _ & Haccept & _).
  apply Haccept. exists (ValidResult true). split; reflexivity.
Defined.

(** The hint Authereum in an imToken browser: no call is made, and a
    signature the contract would refuse is accepted. *)
Lemma authereum_path_counterexample :
  ~ authereum_path_as_stated Sample.fmt Sample.util Sample.abi
      Sample.imToken_window
      (Sample.provider (Success (Sample.rpc_sig "1b"))
         (Failure Sample.reverted) Sample.no_contract)
      Sample.account "hello".
Proof.
  intros H. destruct (H (Sample.rpc_sig "1b") eq_refl) as (Hent & _).
  vm_compute in Hent. discriminate Hent.
Qed.

(** ** Signing a transaction (C9) *)

Lemma sign_trace fmt web3 account hash :
  trace (sign fmt web3 account hash) = [EthSign hash account].
Proof.
  unfold sign, request.
  destruct (eth_sign web3 hash account) as [err|result]; cbn; [reflexivity|].
  destruct (addHexPrefix fmt _); cbn; [|reflexivity].
  destruct (addHexPrefix fmt _); reflexivity.
Qed.

(** [signEthereumTx] once the envelope is built, by how [sign] ended. *)
Lemma signEthereumTx_built fmt txlib web3 account rawTx ethTx :
  new_Transaction txlib rawTx = JS.Returns ethTx ->
  let hash := toHex fmt (tx_hash txlib ethTx false) in
  signEthereumTx fmt txlib web3 account rawTx
  = ([EthSign hash account],
     match outcome (sign fmt web3 account hash) with
     | Resolved (SignResult signature) =>
         match
           assign_signature txlib ethTx
             (Sig.set_v
                (JS.add (Sig.v signature)
                   (JS.add
                      (JS.mul (JS.Num (getChainId txlib ethTx)) (JS.Num 2))
                      (JS.Num 8)))
                signature)
         with
         | JS.Returns signedTx => Resolved (toHex fmt (serialize txlib signedTx))
         | JS.Throws e => Rejected e
         end
     | Resolved (SignError errorMsg) => Rejected (JS.Error errorMsg)
     | Rejected e => Rejected e
     | Pending => Pending
     end).
Proof.
  intros Hnew hash. unfold signEthereumTx. rewrite Hnew. fold hash.
  pose proof (sign_trace fmt web3 account hash) as Htr.
  unfold trace, outcome in *.
  destruct (sign fmt web3 account hash) as [tr [[signature|errorMsg]|e|]];
    cbn in Htr; subst tr; cbn; try reflexivity.
  destruct (assign_signature txlib ethTx _); reflexivity.
Qed.




(** ** Sending a transaction (C10) *)

(** C10.  [sendTransaction] deletes [gasPrice] from the object the
    caller passed, by reference, before it submits it: after the call the
    caller's object has no [gasPrice] and every other property as before,
    so an object that had a [gasPrice] has changed; the object submitted
    is the one without [gasPrice]; no other object of the caller is
    touched. *)
Theorem sendTransaction_deletes_gasPrice web3 (heap : Heap) tx (obj : Object) :
  heap !! tx = Some obj ->
  let heap' := fst (sendTransaction web3 heap tx) in
  let p := snd (sendTransaction web3 heap tx) in
  (exists obj' : Object,
     heap' !! tx = Some obj' /\
     obj' !! "gasPrice" = None /\
     (forall k, k <> "gasPrice" -> obj' !! k = obj !! k) /\
     (is_Some (obj !! "gasPrice") -> obj' <> obj)) /\
  (forall other, other <> tx -> heap' !! other = heap !! other) /\
  trace p = [EthSendTransaction (delete "gasPrice" obj)].
Proof.
  intros Hobj heap' p. subst heap' p. unfold sendTransaction.
  rewrite Hobj. cbn [fst snd]. split; [|split].
  - exists (delete "gasPrice" obj). split; [apply lookup_insert_eq|].
    split; [apply lookup_delete_eq|]. split.
    + intros k Hk. apply lookup_delete_ne. congruence.
    + intros [x Hx] Heq. rewrite <- Heq, lookup_delete_eq in Hx.
      discriminate Hx.
  - intros other Hother. apply lookup_insert_ne. congruence.
  - unfold request, trace.
    destruct (eth_sendTransaction web3 _) as [err|transactionHash]; cbn;
      [reflexivity|].
    destruct (JS.truthy_string transactionHash); reflexivity.
Qed.

Lemma sendTransaction_deletes_gasPrice_witness :
  let web3 := Sample.provider (Success "0x7a") (Failure Sample.reverted)
                Sample.no_contract in
  let obj : Object :=
    <["gasPrice" := JS.Str "0x3b9aca00"]> {["to" := JS.Str Sample.account]} in
  let heap : Heap := {[1%positive := obj]} in
  fst (sendTransaction web3 heap 1%positive) !! 1%positive
  = Some ({["to" := JS.Str Sample.account]} : Object).
Proof.
  intros web3 obj heap.
  destruct (sendTransaction_deletes_gasPrice web3 heap 1%positive obj)
    as ((obj' & Hlook & Hgas & Hrest & _) & _ & _).
  - apply lookup_singleton_eq.
  - rewrite Hlook. f_equal. apply map_eq. intros k.
    destruct (decide (k = "gasPrice")) as [->|Hk].
    + rewrite Hgas. symmetry. apply lookup_singleton_ne. discriminate.
    + rewrite (Hrest k Hk). subst obj. apply lookup_insert_ne. congruence.
Defined.

(** ** A signature whose key cannot be recovered (C3) *)

(** C3 (what the code does).  Let the sign call succeed outside imToken
    with a signature from which the public key cannot be recovered.
    With the hint WalletLink, [walletLinkValid] is rejected with what the
    library threw, and [personalSign] never settles: it neither accepts
    nor rejects nor reports an error.  In the generic chain, once the
    first three functions ended without a verification and the registry
    answered, [mykeyWalletValid] never settles, and so neither does
    [personalSign]: the chain does not reach its rejection. *)
Theorem recovery_failure_never_settles
    fmt util abi window web3 account msg sig :
  personal_sign web3 msg account "" = Success sig ->
  is_imToken window = false ->
  (recovery_fails util
     (hashPersonalMessage util (toBuffer fmt (JS.Str msg))) sig ->
   (exists e, outcome (walletLinkValid fmt util account msg sig)
              = Rejected e) /\
   outcome (personalSign fmt util abi window web3 account msg
              (JS.Str "WalletLink")) = Pending) /\
  (forall walletType res,
     recovery_fails util
       (hashPersonalMessage util (keccak256 util (toBuffer fmt (JS.Str msg))))
       sig ->
     JS.strict_eq_string walletType "WalletLink" = false ->
     JS.strict_eq_string walletType "Authereum" = false ->
     not_verified (ecRecover web3 account msg sig) ->
     not_verified (contractWalletValidate fmt util abi web3 account msg sig) ->
     not_verified (contractWalletValidate2 fmt util abi web3 account msg sig) ->
     eth_call web3 myKeyContract
       (encodeInputs abi "getKeyData"
          [("_account", JS.Str account); ("_index", JS.Number (JS.Num 3))])
     = Success res ->
     outcome (mykeyWalletValid fmt util abi web3 account msg sig) = Pending /\
     outcome (personalSign fmt util abi window web3 account msg walletType)
     = Pending).
Proof.
  intros Hsign Him. split.
  - intros Hfail.
    assert (Hrun : exists e, walletLinkValid fmt util account msg sig
                             = ([Enter fn_walletLinkValid], Rejected e)).
    { unfold walletLinkValid.
      destruct Hfail as [[e He]|(signature & e & Hsig & He)].
      - exists e. rewrite He. reflexivity.
      - exists e. rewrite Hsig. cbn. rewrite He. reflexivity. }
    destruct Hrun as [e Hrun]. split.
    + exists e. rewrite Hrun. reflexivity.
    + rewrite (personalSign_walletLink fmt util abi window web3 account msg
                 sig Hsign Him), Hrun.
      reflexivity.
  - intros walletType res Hfail Hwl Hau H1 H2 H3 Hcall.
    assert (Hrun : outcome (mykeyWalletValid fmt util abi web3 account msg sig)
                   = Pending).
    { unfold mykeyWalletValid, request. rewrite Hcall. cbn.
      destruct Hfail as [[e He]|(signature & e & Hsig & He)].
      - rewrite He. reflexivity.
      - rewrite Hsig. cbn. destruct (addHexPrefix fmt _); cbn; [|reflexivity].
        rewrite He. reflexivity. }
    split; [exact Hrun|].
    rewrite (personalSign_generic fmt util abi window web3 account msg
               walletType sig Hsign Him Hwl Hau).
    unfold generic_chain, first_verified, outcome in *.
    destruct H1 as (v1 & E1 & T1), H2 as (v2 & E2 & T2), H3 as (v3 & E3 & T3).
    destruct (ecRecover web3 account msg sig) as [tr1 st1].
    destruct (contractWalletValidate fmt util abi web3 account msg sig)
      as [tr2 st2].
    destruct (contractWalletValidate2 fmt util abi web3 account msg sig)
      as [tr3 st3].
    destruct (mykeyWalletValid fmt util abi web3 account msg sig)
      as [tr4 st4].
    cbn in E1, E2, E3, Hrun. subst. cbn. rewrite T1. cbn. rewrite T2. cbn.
    rewrite T3. reflexivity.
Qed.

(** A provider returns a string that is no 65-byte signature (a contract
    wallet's signature, say) and only the registry answers calls. *)
Lemma recovery_failure_never_settles_witness :
  let web3 := Sample.provider (Success "0xdead") (Failure Sample.reverted)
                Sample.registry_only in
  outcome (walletLinkValid Sample.fmt Sample.util Sample.account "hello"
             "0xdead")
  = Rejected (JS.Error "Invalid signature length") /\
  outcome (personalSign Sample.fmt Sample.util Sample.abi Sample.plain_window
             web3 Sample.account "hello" (JS.Str "WalletLink")) = Pending /\
  outcome (personalSign Sample.fmt Sample.util Sample.abi Sample.plain_window
             web3 Sample.account "hello" JS.Undefined) = Pending.
Proof.
  intros web3.
  destruct (recovery_failure_never_settles
              Sample.fmt Sample.util Sample.abi Sample.plain_window web3
              Sample.account "hello" "0xdead" eq_refl eq_refl)
    as [Hwl Hchain].
  split; [reflexivity|]. split.
  - apply Hwl. left. exists (JS.Error "Invalid signature length").
    reflexivity.
  - apply (Hchain JS.Undefined "00000000000000000000000000000000000000aa").
    + left. exists (JS.Error "Invalid signature length"). reflexivity.
    + reflexivity.
    + reflexivity.
    + exists (ValidError Sample.reverted). split; reflexivity.
    + exists (ValidError Sample.reverted). split; reflexivity.
    + exists (ValidError Sample.reverted). split; reflexivity.
    + reflexivity.
Defined.

(** * The rest of the module

    The functions the statements above leave out, and further properties
    of those they cover. *)

(** ** [signMessage], [signEip712] and [isContract] *)

(** [signMessage(web3, account, message)], for a [message] that is a
    buffer. *)
Definition signMessage (fmt : Formatter) (util : EthUtil) (web3 : Web3)
    (account : string) (message : JS.Buffer) : Async SignResponse :=
  let hash := toHex fmt (hashPersonalMessage util (keccak256 util message)) in
  sign fmt web3 account hash.

(** The truthiness of a value. *)
Definition js_truthy (x : JS.value) : bool :=
  match x with
  | JS.Undefined => false
  | JS.Str s => JS.truthy_string s
  | JS.Number (JS.Num z) => negb (z =? 0)
  | JS.Number JS.NaN => false
  | JS.Number (JS.Infinity _) => true
  | JS.Buf _ => true
  end.

(** The JSON-RPC response object [sendAsync] hands to its callback:
    [result.error] (absent, or an object with a [message]) and
    [result.result]. *)
Record RpcResult := {
  rpc_error : option ProviderError;
  rpc_result : JS.value;
}.

(** [web3.currentProvider]: [sendAsync({ method, params, account }, cb)]
    calls [cb] once, with an error or with a response object. *)
Record CurrentProvider := {
  sendAsync : string -> list JS.value -> string -> Response RpcResult;
}.

(** What the callback of [signEip712] resolves with: [{ result }] or
    [{ error: { message } }]. *)
Inductive Eip712Response :=
| Eip712Result (result : JS.value)
| Eip712Error (errorMsg : string).

(** [signEip712(web3, account, method, params)], by how its promise ends.
    Its one request goes to [currentProvider], which is no part of
    [Web3]. *)
Definition signEip712 (provider : CurrentProvider) (account method : string)
    (params : list JS.value) : Settle Eip712Response :=
  let response :=
    match sendAsync provider method params account with
    | Failure err => Eip712Error (message err)
    | Success result =>
        match rpc_error result with
        | Some error => Eip712Error (message error)
        | None => Eip712Result (rpc_result result)
        end
    end in
  match response with
  | Eip712Result result =>
      if js_truthy result then Resolved response
      else Rejected JS.TypeError
  | Eip712Error errorMsg => Rejected (JS.Error errorMsg)
  end.

(** [isContract(web3, address)], over the promise of
    [web3.eth.getCode(address)].  [code && code.length > 2] is [code]
    itself when [code] is falsy, and the comparison otherwise. *)
Definition isContract (getCode : string -> Settle string) (address : string)
    : Settle (string + bool) :=
  match getCode address with
  | Resolved code =>
      Resolved (if JS.truthy_string code
                then inr (2 <? String.length code)%nat
                else inl code)
  | Rejected e => Rejected e
  | Pending => Pending
  end.

(** The truthiness of what [isContract] returns. *)
Definition truthy_check (x : string + bool) : bool :=
  match x with
  | inl code => JS.truthy_string code
  | inr b => b
  end.

(** ** Errors of [sign] without a location *)

Lemma indexOf_absent (s t : string) :
  (forall k, String.substring k (String.length t) s <> t) ->
  JS.indexOf s t = -1.
Proof.
  intros Habsent. unfold JS.indexOf.
  destruct (String.index 0 t s) as [m|] eqn:E; [|reflexivity].
  exfalso. exact (Habsent m (index_correct1 _ _ _ _ E)).
Qed.

Lemma substring_0_minus_1 (s : string) : JS.substring 0 (-1) s = "".
Proof.
  unfold JS.substring.
  replace (Z.min (Z.max 0 0) (Z.of_nat (String.length s))) with 0 by lia.
  replace (Z.min (Z.max (-1) 0) (Z.of_nat (String.length s))) with 0 by lia.
  cbn. destruct s; reflexivity.
Qed.

(** X1.  When the provider's error message contains no " at ", [sign]
    resolves with an error whose message is empty: the provider's text is
    lost.  [signEthereumTx] then rejects with an error of empty message. *)
Theorem sign_error_without_marker_is_empty
    fmt txlib web3 account hash rawTx err :
  (forall k, String.substring k 4 (message err) <> " at ") ->
  (eth_sign web3 hash account = Failure err ->
   sign fmt web3 account hash
   = ([EthSign hash account], Resolved (SignError ""))) /\
  (forall ethTx,
     new_Transaction txlib rawTx = JS.Returns ethTx ->
     eth_sign web3 (toHex fmt (tx_hash txlib ethTx false)) account
     = Failure err ->
     outcome (signEthereumTx fmt txlib web3 account rawTx)
     = Rejected (JS.Error "")).
Proof.
  intros Habsent.
  assert (Hcut : JS.substring 0 (JS.indexOf (message err) " at ") (message err)
                 = "")
    by (rewrite (indexOf_absent _ " at " Habsent); apply substring_0_minus_1).
  split.
  - intros Herr. unfold sign, request. rewrite Herr. cbn. now rewrite Hcut.
  - intros ethTx Hnew Herr. unfold signEthereumTx, sign, request.
    rewrite Hnew, Herr. cbn. now rewrite Hcut.
Qed.

Lemma sign_error_without_marker_is_empty_witness :
  let web3 := Sample.provider (Failure Sample.reverted)
                (Failure Sample.reverted) Sample.no_contract in
  sign Sample.fmt web3 Sample.account "0x00"
  = ([EthSign "0x00" Sample.account], Resolved (SignError "")) /\
  outcome (signEthereumTx Sample.fmt Sample.txlib web3 Sample.account ∅)
  = Rejected (JS.Error "").
Proof.
  intros web3.
  assert (Habsent : forall k,
            String.substring k 4 (message Sample.reverted) <> " at ").
  { intros k. do 19 (destruct k as [|k]; [vm_compute; discriminate|]).
    cbn. destruct k; discriminate. }
  destruct (sign_error_without_marker_is_empty Sample.fmt Sample.txlib web3
              Sample.account "0x00" ∅ Sample.reverted Habsent) as [Hs Ht].
  split; [apply Hs; reflexivity|].
  apply (Ht (map_to_list (∅ : Object))); reflexivity.
Defined.

(** ** [sign] and its callers always settle *)

(** The recovery id after the Ledger fix is never 0 or 1. *)
Lemma ledger_fix_excludes_0_1 (n : JS.number) :
  let v := if JS.strict_eq_lit n 0 || JS.strict_eq_lit n 1
           then JS.add n (JS.Num 27) else n in
  v <> JS.Num 0 /\ v <> JS.Num 1.
Proof.
  destruct n as [z| |neg]; cbn [JS.strict_eq_lit orb];
    [|split; discriminate..].
  destruct (z =? 0) eqn:E0; cbn [orb].
  - apply Z.eqb_eq in E0. subst z. vm_compute. split; discriminate.
  - destruct (z =? 1) eqn:E1.
    + apply Z.eqb_eq in E1. subst z. vm_compute. split; discriminate.
    + apply Z.eqb_neq in E0, E1. split; intros H; injection H as ->; lia.
Qed.

(** Under the laws of the formatter the callback of [sign] never throws:
    [sign] resolves on every answer of the provider. *)
Lemma sign_settles fmt web3 account hash :
  FormatterLaws fmt ->
  match eth_sign web3 hash account with
  | Success result =>
      exists sg,
        sign fmt web3 account hash
        = ([EthSign hash account], Resolved (SignResult sg)) /\
        Sig.r sg = JS.slice 0 66 result /\
        Sig.v sg <> JS.Num 0 /\ Sig.v sg <> JS.Num 1
  | Failure err =>
      sign fmt web3 account hash
      = ([EthSign hash account],
         Resolved (SignError (before_marker (message err))))
  end.
Proof.
  intros [Hprefix _]. unfold sign, request.
  destruct (eth_sign web3 hash account) as [err|result]; [reflexivity|].
  cbn [await emit callback]. rewrite !Hprefix. cbn [JS.sync_bind].
  eexists. split; [reflexivity|]. split; [reflexivity|].
  apply ledger_fix_excludes_0_1.
Qed.

(** X2.  Under the laws of the formatter, [sign] sends one request and
    resolves whatever the provider answers, never rejecting or hanging:
    on a result -- well-formed or not -- with a signature whose r is the
    first 66 characters of the result and whose v is never 0 or 1; on an
    error with the cut message. *)
Theorem sign_resolves_and_v_is_never_0_or_1 fmt web3 account hash :
  FormatterLaws fmt ->
  let signing := sign fmt web3 account hash in
  trace signing = [EthSign hash account] /\
  (forall result,
     eth_sign web3 hash account = Success result ->
     exists sg,
       outcome signing = Resolved (SignResult sg) /\
       Sig.r sg = JS.slice 0 66 result /\
       Sig.v sg <> JS.Num 0 /\ Sig.v sg <> JS.Num 1) /\
  (forall err,
     eth_sign web3 hash account = Failure err ->
     outcome signing = Resolved (SignError (before_marker (message err)))).
Proof.
  intros Hlaws signing. subst signing.
  pose proof (sign_settles fmt web3 account hash Hlaws) as H.
  destruct (eth_sign web3 hash account) as [err|result].
  - rewrite H. repeat split; [discriminate|].
    intros err' Heq. injection Heq as <-. reflexivity.
  - destruct H as (sg & Heq & Hr & Hv0 & Hv1). rewrite Heq.
    repeat split; [|discriminate].
    intros result' Hres. injection Hres as <-. exists sg. repeat split; assumption.
Qed.

(** A result far too short to be a signature still resolves: r is the
    whole string and v is [NaN]. *)
Lemma sign_resolves_and_v_is_never_0_or_1_witness :
  let web3 := Sample.provider (Success "0xdead") (Failure Sample.reverted)
                Sample.no_contract in
  exists sg,
    outcome (sign Sample.fmt web3 Sample.account "0x00")
    = Resolved (SignResult sg) /\
    Sig.r sg = "0xdead" /\ Sig.v sg <> JS.Num 0 /\ Sig.v sg <> JS.Num 1.
Proof.
  intros web3.
  destruct (sign_resolves_and_v_is_never_0_or_1 Sample.fmt web3
              Sample.account "0x00" sample_formatter_laws) as (_ & Hok & _).
  exact (Hok "0xdead" eq_refl).
Defined.

(** X3.  [signMessage] asks the provider for one signature, of the hex of
    [hashPersonalMessage(keccak256(message))], and resolves like [sign]:
    with a signature whose v is never 0 or 1 when the request succeeds,
    with the cut message when it fails. *)
Theorem signMessage_signs_personal_hash_of_keccak
    fmt util web3 account buf :
  FormatterLaws fmt ->
  let hash := toHex fmt (hashPersonalMessage util (keccak256 util buf)) in
  let signing := signMessage fmt util web3 account buf in
  trace signing = [EthSign hash account] /\
  (forall result,
     eth_sign web3 hash account = Success result ->
     exists sg,
       outcome signing = Resolved (SignResult sg) /\
       Sig.r sg = JS.slice 0 66 result /\
       Sig.v sg <> JS.Num 0 /\ Sig.v sg <> JS.Num 1) /\
  (forall err,
     eth_sign web3 hash account = Failure err ->
     outcome signing = Resolved (SignError (before_marker (message err)))).
Proof.
  intros Hlaws hash signing. subst signing. unfold signMessage. fold hash.
  pose proof (sign_settles fmt web3 account hash Hlaws) as H.
  destruct (eth_sign web3 hash account) as [err|result].
  - rewrite H. repeat split; [discriminate|].
    intros err' Heq. injection Heq as <-. reflexivity.
  - destruct H as (sg & Heq & Hr & Hv0 & Hv1). rewrite Heq.
    repeat split; [|discriminate].
    intros result' Hres. injection Hres as <-. exists sg. repeat split; assumption.
Qed.

Lemma signMessage_signs_personal_hash_of_keccak_witness :
  let web3 := Sample.provider (Success (Sample.rpc_sig "01"))
                (Failure Sample.reverted) Sample.no_contract in
  trace (signMessage Sample.fmt Sample.util web3 Sample.account
           (list_byte_of_string "hello"))
  = [EthSign "hello" Sample.account].
Proof.
  intros web3.
  exact (proj1 (signMessage_signs_personal_hash_of_keccak
                  Sample.fmt Sample.util web3 Sample.account
                  (list_byte_of_string "hello") sample_formatter_laws)).
Defined.

(** X4.  Under the laws of the formatter, [signEthereumTx] never hangs
    and sends at most one request.  When the library refuses the raw
    transaction it is rejected with the library's error and sends
    nothing.  Otherwise it sends the [eth.sign] of the envelope's hash;
    it is rejected with an [Error] carrying the cut message when that
    request fails; and when it succeeds, it resolves with the
    serialization if the setters accept r, s and the new v, and is
    rejected with the setter's error if one refuses. *)
Theorem signEthereumTx_settles fmt txlib web3 account rawTx :
  FormatterLaws fmt ->
  let signed := signEthereumTx fmt txlib web3 account rawTx in
  (forall e, new_Transaction txlib rawTx = JS.Throws e ->
     signed = ([], Rejected e)) /\
  (forall ethTx, new_Transaction txlib rawTx = JS.Returns ethTx ->
     let hash := toHex fmt (tx_hash txlib ethTx false) in
     trace signed = [EthSign hash account] /\
     (forall err,
        eth_sign web3 hash account = Failure err ->
        outcome signed = Rejected (JS.Error (before_marker (message err)))) /\
     (forall result,
        eth_sign web3 hash account = Success result ->
        exists sg,
          outcome (sign fmt web3 account hash) = Resolved (SignResult sg) /\
          outcome signed
          = match
              assign_signature txlib ethTx
                (Sig.set_v
                   (JS.add (Sig.v sg)
                      (JS.add
                         (JS.mul (JS.Num (getChainId txlib ethTx)) (JS.Num 2))
                         (JS.Num 8)))
                   sg)
            with
            | JS.Returns signedTx =>
                Resolved (toHex fmt (serialize txlib signedTx))
            | JS.Throws e => Rejected e
            end)) /\
  outcome signed <> Pending.
Proof.
  intros Hlaws signed. subst signed.
  destruct (new_Transaction txlib rawTx) as [ethTx|e] eqn:Hnew.
  - rewrite (signEthereumTx_built fmt txlib web3 account rawTx ethTx Hnew).
    pose proof (sign_settles fmt web3 account
                  (toHex fmt (tx_hash txlib ethTx false)) Hlaws) as H.
    split; [discriminate|]. unfold outcome, trace. cbn [fst snd].
    destruct (eth_sign web3 (toHex fmt (tx_hash txlib ethTx false)) account)
      as [err|result] eqn:Hreq.
    + split.
      * intros ethTx' Heq. injection Heq as Heq. subst ethTx'. cbn zeta.
        rewrite H, Hreq. cbn [snd].
        split; [reflexivity|]. split; [|discriminate].
        intros err' Heq. injection Heq as Heq. subst err'. reflexivity.
      * rewrite H. cbn [snd]. intros Hp. discriminate Hp.
    + destruct H as (sg & Heq & _). split.
      * intros ethTx' Heq'. injection Heq' as Heq'. subst ethTx'. cbn zeta.
        rewrite Heq, Hreq. cbn [snd].
        split; [reflexivity|]. split; [discriminate|].
        intros result' _. exists sg. split; reflexivity.
      * rewrite Heq. cbn [snd].
        destruct (assign_signature txlib ethTx _); intros Hp; discriminate Hp.
  - unfold signEthereumTx. rewrite Hnew.
    split; [|split; [discriminate|intros Hp; discriminate Hp]].
    intros e' Heq. injection Heq as <-. reflexivity.
Qed.

Lemma signEthereumTx_settles_witness :
  let web3 := Sample.provider (Failure Sample.refused)
                (Failure Sample.reverted) Sample.no_contract in
  outcome (signEthereumTx Sample.fmt Sample.txlib web3 Sample.account ∅)
  = Rejected (JS.Error "User denied message signature.").
Proof.
  intros web3.
  destruct (signEthereumTx_settles Sample.fmt Sample.txlib web3
              Sample.account ∅ sample_formatter_laws)
    as (_ & Hbuilt & _).
  destruct (Hbuilt (map_to_list (∅ : Object)) eq_refl) as (_ & Herr & _).
  exact (Herr Sample.refused eq_refl).
Defined.

(** ** How [sendTransaction] ends *)

(** X5.  For a [tx] that refers to an object, [sendTransaction] sends one
    request and resolves with the transaction hash when the provider
    gives a non-empty one; it is rejected with an [Error] carrying the
    provider's message when the provider fails; and when the provider
    succeeds with an empty hash, it is rejected with a [TypeError] (the
    response has no [error] to read a message from).  For a [tx] that
    refers to nothing it is rejected before any request. *)
Theorem sendTransaction_outcomes web3 (heap : Heap) tx :
  let p := snd (sendTransaction web3 heap tx) in
  (forall obj : Object, heap !! tx = Some obj ->
     match eth_sendTransaction web3 (delete "gasPrice" obj) with
     | Success transactionHash =>
         if String.eqb transactionHash ""
         then outcome p = Rejected JS.TypeError
         else outcome p = Resolved (SendResult transactionHash)
     | Failure err => outcome p = Rejected (JS.Error (message err))
     end) /\
  (heap !! tx = None ->
   sendTransaction web3 heap tx = (heap, ([], Rejected JS.TypeError))) /\
  outcome p <> Pending.
Proof.
  intros p. subst p. unfold sendTransaction, request.
  destruct (heap !! tx) as [obj|] eqn:Hobj; cbn [snd fst].
  - split; [|split; [discriminate|]].
    + intros obj' Heq. injection Heq as <-.
      destruct (eth_sendTransaction web3 _) as [err|transactionHash]; cbn;
        [reflexivity|].
      destruct transactionHash; reflexivity.
    + destruct (eth_sendTransaction web3 _) as [err|transactionHash]; cbn;
        [discriminate|].
      destruct transactionHash; discriminate.
  - split; [discriminate|]. split; [reflexivity | discriminate].
Qed.

(** X6.  [sendTransaction] changes the caller's heap at most once: on an
    object without [gasPrice] it leaves the heap as it is, and a second
    call on the same reference leaves the heap as the first one did. *)
Theorem sendTransaction_heap_idempotent web3 (heap : Heap) tx (obj : Object) :
  heap !! tx = Some obj ->
  let heap' := fst (sendTransaction web3 heap tx) in
  (obj !! "gasPrice" = None -> heap' = heap) /\
  fst (sendTransaction web3 heap' tx) = heap'.
Proof.
  intros Hobj heap'. subst heap'. unfold sendTransaction. rewrite Hobj.
  cbn [fst]. split.
  - intros Hgas. rewrite (delete_id _ _ Hgas). apply insert_id. exact Hobj.
  - rewrite lookup_insert_eq. cbn [fst].
    rewrite delete_delete_eq. apply insert_insert_eq.
Qed.

Lemma sendTransaction_heap_idempotent_witness :
  let web3 := Sample.provider (Success "0x7a") (Failure Sample.reverted)
                Sample.no_contract in
  let obj : Object := {["to" := JS.Str Sample.account]} in
  let heap : Heap := {[1%positive := obj]} in
  fst (sendTransaction web3 heap 1%positive) = heap.
Proof.
  intros web3 obj heap.
  destruct (sendTransaction_heap_idempotent web3 heap 1%positive obj)
    as [Hsame _].
  - apply lookup_singleton_eq.
  - apply Hsame. apply lookup_singleton_ne. discriminate.
Defined.

(** ** How [signEip712] ends *)

(** X7.  [signEip712] resolves, with the provider's result, exactly when
    the provider reports no transport error, the response carries no
    error and its result is truthy.  A transport error or a response
    error rejects with an [Error] of that message; a response with
    neither an error nor a truthy result rejects with a [TypeError]. *)
Theorem signEip712_outcomes provider account method params :
  let p := signEip712 provider account method params in
  (forall resp, p = Resolved resp <->
     exists result,
       sendAsync provider method params account
       = Success {| rpc_error := None; rpc_result := result |} /\
       js_truthy result = true /\ resp = Eip712Result result) /\
  (forall err, sendAsync provider method params account = Failure err ->
     p = Rejected (JS.Error (message err))) /\
  (forall error result,
     sendAsync provider method params account
     = Success {| rpc_error := Some error; rpc_result := result |} ->
     p = Rejected (JS.Error (message error))) /\
  (forall result,
     sendAsync provider method params account
     = Success {| rpc_error := None; rpc_result := result |} ->
     js_truthy result = false -> p = Rejected JS.TypeError) /\
  p <> Pending.
Proof.
  intros p. subst p. unfold signEip712.
  destruct (sendAsync provider method params account)
    as [err|[[error|] result]]; cbn;
    [| |destruct (js_truthy result) eqn:Ht];
    (split; [|split; [|split; [|split]]]).
  all: try discriminate.
  all: try (intros resp; split;
            [intros Heq | intros (result' & Heq & Ht' & Hresp)];
            try discriminate Heq).
  all: try (intros ? Heq; now inversion Heq).
  all: try (intros ? ? Heq; now inversion Heq).
  - injection Heq as <-. exists result. repeat split. exact Ht.
  - inversion Heq. subst. reflexivity.
  - intros result' Heq Hf. inversion Heq. congruence.
  - inversion Heq. congruence.
Qed.

(** ** What [isContract] returns *)

(** X8.  When [getCode] resolves, [isContract] resolves with a value that
    is truthy exactly when the code is longer than two characters; for
    the empty string that value is the empty string itself, not [false].
    A rejection of [getCode] rejects [isContract]. *)
Theorem isContract_truthy_iff_code_longer_than_2 getCode address :
  (forall code, getCode address = Resolved code ->
     exists x,
       isContract getCode address = Resolved x /\
       (truthy_check x = true <-> (2 < String.length code)%nat) /\
       (code = "" -> x = inl "") /\
       (code <> "" -> x = inr (2 <? String.length code)%nat)) /\
  (forall e, getCode address = Rejected e ->
     isContract getCode address = Rejected e).
Proof.
  unfold isContract. split.
  - intros code ->. eexists. split; [reflexivity|].
    destruct code as [|c code]; cbn [JS.truthy_string truthy_check].
    + repeat split; try discriminate; try (cbn; lia). congruence.
    + split; [apply Nat.ltb_lt|]. split; [discriminate | reflexivity].
  - intros e ->. reflexivity.
Qed.

(** ** The verdicts of the verification functions *)

Lemma lower_ascii_idempotent (c : ascii) :
  JS.lower_ascii (JS.lower_ascii c) = JS.lower_ascii c.
Proof.
  destruct c as [[] [] [] [] [] [] [] []]; reflexivity.
Qed.

Lemma toLowerCase_idempotent (s : string) :
  JS.toLowerCase (JS.toLowerCase s) = JS.toLowerCase s.
Proof.
  induction s as [|c s IH]; cbn; [reflexivity|].
  now rewrite lower_ascii_idempotent, IH.
Qed.

Lemma verified_resolved tr (valid : Valid) :
  verified (tr, Resolved valid) <-> valid_result valid = true.
Proof.
  unfold verified. cbn. split.
  - intros (valid' & Heq & Hv). injection Heq as <-. exact Hv.
  - intros Hv. exists valid. split; [reflexivity | exact Hv].
Qed.

Lemma not_verified_resolved tr (valid : Valid) :
  not_verified (tr, Resolved valid) <-> valid_result valid = false.
Proof.
  unfold not_verified. cbn. split.
  - intros (valid' & Heq & Hv). injection Heq as <-. exact Hv.
  - intros Hv. exists valid. split; [reflexivity | exact Hv].
Qed.

(** The remote recovery always resolves. *)
Lemma ecRecover_resolves web3 account msg sig :
  exists valid,
    ecRecover web3 account msg sig
    = ([Enter fn_ecRecover; PersonalEcRecover msg sig], Resolved valid) /\
    (valid_result valid = true <->
     exists address,
       personal_ecRecover web3 msg sig = Success address /\
       JS.toLowerCase address = JS.toLowerCase account) /\
    (forall err, personal_ecRecover web3 msg sig = Failure err ->
       valid = ValidError err).
Proof.
  unfold ecRecover, request.
  destruct (personal_ecRecover web3 msg sig) as [err|address]; cbn.
  - exists (ValidError err). split; [reflexivity|]. split.
    + cbn. split; [discriminate | intros (? & ? & _); discriminate].
    + intros err' Heq. injection Heq as <-. reflexivity.
  - eexists. split; [reflexivity|]. split; [|discriminate].
    cbn. rewrite String.eqb_eq. split.
    + intros H. exists address. split; [reflexivity | exact H].
    + intros (address' & Heq & H). injection Heq as <-. exact H.
Qed.

(** X9.  [ecRecover] sends one request, the remote recovery of the
    signer of [msg], and always resolves.  It reports a verification
    exactly when the provider returns an address equal to the account up
    to letter case; a provider error is passed on as [{ error: err }];
    and the verdict is the same for any spelling of the account that
    differs only in letter case. *)
Theorem ecRecover_verdict_ignores_letter_case web3 account msg sig :
  let run := ecRecover web3 account msg sig in
  trace run = [Enter PlainRecover; PersonalEcRecover msg sig] /\
  (verified run <->
   exists address,
     personal_ecRecover web3 msg sig = Success address /\
     JS.toLowerCase address = JS.toLowerCase account) /\
  (forall err, personal_ecRecover web3 msg sig = Failure err ->
     outcome run = Resolved (ValidError err)) /\
  (forall account',
     JS.toLowerCase account' = JS.toLowerCase account ->
     ecRecover web3 account' msg sig = run) /\
  ecRecover web3 (JS.toLowerCase account) msg sig = run.
Proof.
  intros run.
  assert (Hcase : forall account',
            JS.toLowerCase account' = JS.toLowerCase account ->
            ecRecover web3 account' msg sig = run).
  { intros account' Heq. subst run. unfold ecRecover. now rewrite Heq. }
  destruct (ecRecover_resolves web3 account msg sig)
    as (valid & Hrun & Hiff & Herr).
  fold run in Hrun. rewrite Hrun in *.
  split; [reflexivity|]. split; [|split; [|split]].
  - rewrite verified_resolved. exact Hiff.
  - intros err He. cbn. now rewrite (Herr err He).
  - exact Hcase.
  - apply Hcase, toLowerCase_idempotent.
Qed.

(** The three selector-echo functions always resolve. *)
Lemma contractWalletValidate_resolves fmt util abi web3 account msg sig :
  let data :=
    encodeInputs abi "isValidSignature(bytes,bytes)"
      [("_data", JS.Buf (hashPersonalMessage util (toBuffer fmt (JS.Str msg))));
       ("_signature", JS.Buf (toBuffer fmt (JS.Str sig)))] in
  exists valid,
    contractWalletValidate fmt util abi web3 account msg sig
    = ([Enter fn_contractWalletValidate; EthCall account data],
       Resolved valid) /\
    (valid_result valid = true <->
     exists result,
       eth_call web3 account data = Success result /\
       toHex fmt (toBuffer fmt
         (JS.first (decodeOutputs abi "isValidSignature(bytes,bytes)" result)))
       = JS.slice 0 10 data).
Proof.
  intros data. unfold contractWalletValidate, request. fold data.
  destruct (eth_call web3 account data) as [err|result]; cbn.
  - exists (ValidError err). split; [reflexivity|]. cbn.
    split; [discriminate | intros (? & ? & _); discriminate].
  - eexists. split; [reflexivity|]. cbn. rewrite String.eqb_eq. split.
    + intros H. exists result. split; [reflexivity | exact H].
    + intros (result' & Hres & H). injection Hres as <-. exact H.
Qed.

Lemma contractWalletValidate2_resolves fmt util abi web3 account msg sig :
  let data :=
    encodeInputs abi "isValidSignature(bytes32,bytes)"
      [("_data", JS.Buf (hashPersonalMessage util (toBuffer fmt (JS.Str msg))));
       ("_signature", JS.Buf (toBuffer fmt (JS.Str sig)))] in
  exists valid,
    contractWalletValidate2 fmt util abi web3 account msg sig
    = ([Enter fn_contractWalletValidate2; EthCall account data],
       Resolved valid) /\
    (valid_result valid = true <->
     exists result,
       eth_call web3 account data = Success result /\
       toHex fmt (toBuffer fmt
         (JS.first
            (decodeOutputs abi "isValidSignature(bytes32,bytes)" result)))
       = JS.slice 0 10 data).
Proof.
  intros data. unfold contractWalletValidate2, request. fold data.
  destruct (eth_call web3 account data) as [err|result]; cbn.
  - exists (ValidError err). split; [reflexivity|]. cbn.
    split; [discriminate | intros (? & ? & _); discriminate].
  - eexists. split; [reflexivity|]. cbn. rewrite String.eqb_eq. split.
    + intros H. exists result. split; [reflexivity | exact H].
    + intros (result' & Hres & H). injection Hres as <-. exact H.
Qed.

Lemma authereumValid_resolves fmt abi web3 account msg sig :
  exists tr valid,
    authereumValid fmt abi web3 account msg sig = (tr, Resolved valid) /\
    entered tr = [fn_authereumValid].
Proof.
  unfold authereumValid, request.
  destruct (eth_call web3 account _); cbn; eexists _, _; split; reflexivity.
Qed.

(** X10.  [contractWalletValidate] and [contractWalletValidate2] each
    send one call to the account, of [isValidSignature(bytes,bytes)] and
    [isValidSignature(bytes32,bytes)] on the same two arguments -- the
    personal-message hash of the message and the signature bytes -- and
    always resolve.  Each reports a verification exactly when its call
    succeeds and the hex of the first decoded output equals the first ten
    characters of the call data it sent. *)
Theorem contractWalletValidate_selector_echo
    fmt util abi web3 account msg sig :
  let args :=
    [("_data", JS.Buf (hashPersonalMessage util (toBuffer fmt (JS.Str msg))));
     ("_signature", JS.Buf (toBuffer fmt (JS.Str sig)))] in
  let data1 := encodeInputs abi "isValidSignature(bytes,bytes)" args in
  let data2 := encodeInputs abi "isValidSignature(bytes32,bytes)" args in
  let run1 := contractWalletValidate fmt util abi web3 account msg sig in
  let run2 := contractWalletValidate2 fmt util abi web3 account msg sig in
  trace run1 = [Enter ContractWalletBytesBytes; EthCall account data1] /\
  trace run2 = [Enter ContractWalletBytes32Bytes; EthCall account data2] /\
  (exists valid, outcome run1 = Resolved valid) /\
  (exists valid, outcome run2 = Resolved valid) /\
  (verified run1 <->
   exists result,
     eth_call web3 account data1 = Success result /\
     toHex fmt (toBuffer fmt
       (JS.first (decodeOutputs abi "isValidSignature(bytes,bytes)" result)))
     = JS.slice 0 10 data1) /\
  (verified run2 <->
   exists result,
     eth_call web3 account data2 = Success result /\
     toHex fmt (toBuffer fmt
       (JS.first (decodeOutputs abi "isValidSignature(bytes32,bytes)" result)))
     = JS.slice 0 10 data2).
Proof.
  intros args data1 data2 run1 run2.
  destruct (contractWalletValidate_resolves fmt util abi web3 account msg sig)
    as (v1 & H1 & Hiff1).
  destruct (contractWalletValidate2_resolves fmt util abi web3 account msg sig)
    as (v2 & H2 & Hiff2).
  fold run1 in H1. fold run2 in H2. rewrite H1, H2.
  rewrite !verified_resolved.
  repeat split; try (eexists; reflexivity); try apply Hiff1; try apply Hiff2.
Qed.

(** ** Local recovery: [walletLinkValid] and [mykeyWalletValid] *)

(** Something in the callback of [mykeyWalletValid] throws, given the
    registry's answer [res]: the string is no signature, the first
    decoded output is no string to prefix, or the recovery fails. *)
Definition mykey_callback_throws (fmt : Formatter) (util : EthUtil)
    (abi : ContractWallet) (msg sig res : string) : Prop :=
  (exists e, fromRpcSig util sig = JS.Throws e) \/
  (exists e, addHexPrefix fmt (JS.first (decodeOutputs abi "getKeyData" res))
             = JS.Throws e) \/
  (exists signature e,
     fromRpcSig util sig = JS.Returns signature /\
     ecrecover util
       (hashPersonalMessage util (keccak256 util (toBuffer fmt (JS.Str msg))))
       (sig_v signature) (sig_r signature) (sig_s signature)
     = JS.Throws e).

Lemma walletLinkValid_cases fmt util account msg sig :
  let hash := hashPersonalMessage util (toBuffer fmt (JS.Str msg)) in
  (exists signature pub,
     fromRpcSig util sig = JS.Returns signature /\
     ecrecover util hash (sig_v signature) (sig_r signature) (sig_s signature)
     = JS.Returns pub /\
     walletLinkValid fmt util account msg sig
     = ([Enter fn_walletLinkValid],
        Resolved (ValidResult
          (String.eqb (JS.toLowerCase (toHex fmt (pubToAddress util pub)))
                      (JS.toLowerCase account))))) \/
  (exists e,
     recovery_fails util hash sig /\
     walletLinkValid fmt util account msg sig
     = ([Enter fn_walletLinkValid], Rejected e)).
Proof.
  intros hash. unfold walletLinkValid, recovery_fails. fold hash.
  destruct (fromRpcSig util sig) as [signature|e] eqn:Hsig; cbn.
  - destruct (ecrecover util hash _ _ _) as [pub|e] eqn:Hrec; cbn.
    + left. exists signature, pub. repeat split. exact Hrec.
    + right. exists e. split; [|reflexivity].
      right. exists signature, e. split; [reflexivity | exact Hrec].
  - right. exists e. split; [|reflexivity]. left. exists e. reflexivity.
Qed.

Lemma recovery_fails_excludes util hash sig signature pub :
  recovery_fails util hash sig ->
  fromRpcSig util sig = JS.Returns signature ->
  ecrecover util hash (sig_v signature) (sig_r signature) (sig_s signature)
  = JS.Returns pub ->
  False.
Proof.
  intros [[e He]|(signature' & e & Hsig & He)] Hs Hr; [congruence|].
  rewrite Hs in Hsig. injection Hsig as <-. congruence.
Qed.

(** X11.  [walletLinkValid] sends no request and never hangs.  It
    reports a verification exactly when the public key can be recovered
    from the signature and the personal-message hash of the message, and
    the recovered address equals the account up to letter case; it is
    rejected exactly when the recovery fails. *)
Theorem walletLinkValid_verdict fmt util account msg sig :
  let hash := hashPersonalMessage util (toBuffer fmt (JS.Str msg)) in
  let run := walletLinkValid fmt util account msg sig in
  trace run = [Enter WalletLinkRecover] /\
  (verified run <->
   exists signature pub,
     fromRpcSig util sig = JS.Returns signature /\
     ecrecover util hash (sig_v signature) (sig_r signature) (sig_s signature)
     = JS.Returns pub /\
     JS.toLowerCase (toHex fmt (pubToAddress util pub))
     = JS.toLowerCase account) /\
  ((exists e, outcome run = Rejected e) <-> recovery_fails util hash sig) /\
  outcome run <> Pending.
Proof.
  intros hash run.
  destruct (walletLinkValid_cases fmt util account msg sig)
    as [(signature & pub & Hsig & Hrec & Hrun)|(e & Hfail & Hrun)];
    fold hash in Hrec || fold hash in Hfail; fold run in Hrun; rewrite Hrun.
  - split; [reflexivity|]. split; [|split; [|discriminate]].
    + rewrite verified_resolved. cbn. rewrite String.eqb_eq. split.
      * intros H. exists signature, pub. repeat split; assumption.
      * intros (signature' & pub' & Hsig' & Hrec' & H).
        rewrite Hsig in Hsig'. injection Hsig' as <-.
        rewrite Hrec in Hrec'. injection Hrec' as <-. exact H.
    + cbn. split; [intros [e He]; discriminate He|].
      intros Hfail. exfalso.
      exact (recovery_fails_excludes _ _ _ _ _ Hfail Hsig Hrec).
  - split; [reflexivity|]. split; [|split; [|discriminate]].
    + unfold verified. cbn. split.
      * intros (valid & Heq & _). discriminate Heq.
      * intros (signature & pub & Hsig & Hrec & _). exfalso.
        exact (recovery_fails_excludes _ _ _ _ _ Hfail Hsig Hrec).
    + cbn. split; [intros _; exact Hfail | intros _; exists e; reflexivity].
Qed.

Lemma mykeyWalletValid_cases fmt util abi web3 account msg sig :
  let data :=
    encodeInputs abi "getKeyData"
      [("_account", JS.Str account); ("_index", JS.Number (JS.Num 3))] in
  let tr := [Enter fn_mykeyWalletValid; EthCall myKeyContract data] in
  (exists valid,
     mykeyWalletValid fmt util abi web3 account msg sig = (tr, Resolved valid) /\
     ((exists err, eth_call web3 myKeyContract data = Failure err) \/
      (exists res, eth_call web3 myKeyContract data = Success res /\
                   ~ mykey_callback_throws fmt util abi msg sig res))) \/
  (exists res,
     eth_call web3 myKeyContract data = Success res /\
     mykey_callback_throws fmt util abi msg sig res /\
     mykeyWalletValid fmt util abi web3 account msg sig = (tr, Pending)).
Proof.
  intros data tr. unfold mykeyWalletValid, request, mykey_callback_throws.
  fold data.
  destruct (eth_call web3 myKeyContract data) as [err|res]; cbn.
  { left. eexists. split; [reflexivity|]. left. exists err. reflexivity. }
  destruct (fromRpcSig util sig) as [signature|e] eqn:Hsig; cbn.
  2: { right. exists res. split; [reflexivity|]. split; [|reflexivity].
       left. exists e. first [reflexivity | exact Hsig]. }
  destruct (addHexPrefix fmt _) as [address|e] eqn:Haddr; cbn.
  2: { right. exists res. split; [reflexivity|]. split; [|reflexivity].
       right. left. exists e. first [reflexivity | exact Haddr]. }
  destruct (ecrecover util _ _ _ _) as [pub|e] eqn:Hrec; cbn.
  2: { right. exists res. split; [reflexivity|]. split; [|reflexivity].
       right. right. exists signature, e.
       split; [first [reflexivity | exact Hsig] | exact Hrec]. }
  left. eexists. split; [reflexivity|]. right. exists res.
  split; [reflexivity|].
  intros [[e He]|[[e He]|(signature' & e & Hs & He)]]; congruence.
Qed.

(** X12.  [mykeyWalletValid] is never rejected, and it hangs exactly
    when the registry call succeeds and something in its callback throws
    -- the string is no signature, the decoded output cannot be prefixed,
    or the recovery fails.  When the registry call fails it resolves with
    the provider's error. *)
Theorem mykeyWalletValid_hangs_iff_callback_throws
    fmt util abi web3 account msg sig :
  let data :=
    encodeInputs abi "getKeyData"
      [("_account", JS.Str account); ("_index", JS.Number (JS.Num 3))] in
  let run := mykeyWalletValid fmt util abi web3 account msg sig in
  (outcome run = Pending <->
   exists res,
     eth_call web3 myKeyContract data = Success res /\
     mykey_callback_throws fmt util abi msg sig res) /\
  (forall e, outcome run <> Rejected e) /\
  (forall err, eth_call web3 myKeyContract data = Failure err ->
     outcome run = Resolved (ValidError err)).
Proof.
  intros data run.
  assert (Herr : forall err, eth_call web3 myKeyContract data = Failure err ->
                   outcome run = Resolved (ValidError err)).
  { intros err He. subst run. unfold mykeyWalletValid, request. fold data.
    rewrite He. reflexivity. }
  destruct (mykeyWalletValid_cases fmt util abi web3 account msg sig)
    as [(valid & Hrun & Hwhy)|(res & Hcall & Hthrows & Hrun)];
    fold data in Hwhy || fold data in Hcall; fold run in Hrun; rewrite Hrun.
  - split; [|split; [discriminate|]].
    + cbn. split; [discriminate|]. intros (res & Hcall & Hthrows).
      destruct Hwhy as [[err He]|(res' & Hcall' & Hno)]; [congruence|].
      rewrite Hcall in Hcall'. injection Hcall' as <-. contradiction.
    + rewrite <- Hrun. exact Herr.
  - split; [|split; [discriminate|]].
    + cbn. split; [|reflexivity]. intros _. exists res. split; assumption.
    + rewrite <- Hrun. exact Herr.
Qed.

(** ** What [personalSign] accepts, and when it hangs *)

Lemma strict_eq_string_true (x : JS.value) (lit : string) :
  JS.strict_eq_string x lit = true <-> x = JS.Str lit.
Proof.
  destruct x as [|s|n|b]; cbn; try (split; discriminate).
  rewrite String.eqb_eq. split; [now intros -> | now intros [= ->]].
Qed.

Lemma strict_eq_string_false (x : JS.value) (lit : string) :
  JS.strict_eq_string x lit = false <-> x <> JS.Str lit.
Proof.
  rewrite <- strict_eq_string_true.
  destruct (JS.strict_eq_string x lit); split; congruence.
Qed.

(** The three ways [personalSign] reads its hint. *)
Lemma hint_cases (walletType : JS.value) :
  walletType = JS.Str "WalletLink" \/
  walletType = JS.Str "Authereum" \/
  (JS.strict_eq_string walletType "WalletLink" = false /\
   JS.strict_eq_string walletType "Authereum" = false).
Proof.
  destruct (JS.strict_eq_string walletType "WalletLink") eqn:Hwl.
  - left. now apply strict_eq_string_true.
  - destruct (JS.strict_eq_string walletType "Authereum") eqn:Hau.
    + right. left. now apply strict_eq_string_true.
    + right. right. split; reflexivity.
Qed.

(** [personalSign] in the generic chain, with its first three runs
    resolved. *)
Lemma personalSign_generic_outcome
    fmt util abi window web3 account msg walletType sig :
  personal_sign web3 msg account "" = Success sig ->
  is_imToken window = false ->
  JS.strict_eq_string walletType "WalletLink" = false ->
  JS.strict_eq_string walletType "Authereum" = false ->
  exists tr1 v1 tr2 v2 tr3 v3,
    ecRecover web3 account msg sig = (tr1, Resolved v1) /\
    contractWalletValidate fmt util abi web3 account msg sig
    = (tr2, Resolved v2) /\
    contractWalletValidate2 fmt util abi web3 account msg sig
    = (tr3, Resolved v3) /\
    entered tr1 = [fn_ecRecover] /\
    entered tr2 = [fn_contractWalletValidate] /\
    entered tr3 = [fn_contractWalletValidate2] /\
    personalSign fmt util abi window web3 account msg walletType
    = if valid_result v1
      then (PersonalSign msg account "" :: tr1, Resolved (SigOf sig))
      else if valid_result v2
      then (PersonalSign msg account "" :: tr1 ++ tr2, Resolved (SigOf sig))
      else if valid_result v3
      then (PersonalSign msg account "" :: tr1 ++ tr2 ++ tr3,
            Resolved (SigOf sig))
      else (PersonalSign msg account "" :: tr1 ++ tr2 ++ tr3 ++
              trace (mykeyWalletValid fmt util abi web3 account msg sig),
            match outcome (mykeyWalletValid fmt util abi web3 account msg sig)
            with
            | Resolved v4 =>
                Resolved (if valid_result v4 then SigOf sig
                          else ErrorText "invalid sig")
            | _ => Pending
            end).
Proof.
  intros Hsign Him Hwl Hau.
  rewrite (personalSign_generic fmt util abi window web3 account msg
             walletType sig Hsign Him Hwl Hau).
  unfold generic_chain.
  destruct (ecRecover_resolves web3 account msg sig) as (v1 & H1 & _).
  destruct (contractWalletValidate_resolves fmt util abi web3 account msg sig)
    as (v2 & H2 & _).
  destruct (contractWalletValidate2_resolves fmt util abi web3 account msg sig)
    as (v3 & H3 & _).
  rewrite H1, H2, H3.
  do 6 eexists. repeat (split; [reflexivity|]).
  unfold trace, outcome.
  destruct (mykeyWalletValid fmt util abi web3 account msg sig)
    as [tr4 [v4| |]];
    cbn; destruct (valid_result v1), (valid_result v2), (valid_result v3);
    cbn; try reflexivity.
  destruct (valid_result v4); cbn; rewrite app_nil_r; reflexivity.
Qed.

(** X13.  [personalSign] resolves with a signature only if that is the
    string the sign request returned, and only if the provider is imToken
    or a verification function of the path the hint selects reported a
    verification.  It is never rejected. *)
Theorem personalSign_accepts_only_verified
    fmt util abi window web3 account msg walletType s :
  let p := personalSign fmt util abi window web3 account msg walletType in
  (outcome p = Resolved (SigOf s) ->
   personal_sign web3 msg account "" = Success s /\
   (is_imToken window = true \/
    (walletType = JS.Str "WalletLink" /\
     verified (walletLinkValid fmt util account msg s)) \/
    (walletType = JS.Str "Authereum" /\
     verified (authereumValid fmt abi web3 account msg s)) \/
    (walletType <> JS.Str "WalletLink" /\
     walletType <> JS.Str "Authereum" /\
     Exists verified (generic_chain fmt util abi web3 account msg s)))) /\
  (forall e, outcome p <> Rejected e).
Proof.
  intros p. subst p.
  destruct (personal_sign web3 msg account "") as [err|sig] eqn:Hsign.
  { rewrite (personalSign_failure fmt util abi window web3 account msg
               walletType err Hsign).
    split; [discriminate | intros e; discriminate]. }
  destruct (is_imToken window) eqn:Him.
  { rewrite (personalSign_imToken fmt util abi window web3 account msg
               walletType sig Hsign Him).
    split; [|intros e; discriminate].
    intros Heq. injection Heq as Heq. subst s. split; [reflexivity | now left]. }
  destruct (hint_cases walletType) as [->|[->|[Hwl Hau]]].
  - rewrite (personalSign_walletLink fmt util abi window web3 account msg
               sig Hsign Him).
    destruct (walletLinkValid fmt util account msg sig)
      as [tr [valid|e0|]] eqn:Hrun; cbn;
      [|split; [discriminate | intros e; discriminate]..].
    destruct (valid_result valid) eqn:Hv; cbn;
      (split; [|intros e; discriminate]); [|discriminate].
    intros Heq. injection Heq as Heq. subst s. split; [reflexivity|].
    right. left. split; [reflexivity|].
    change (verified (walletLinkValid fmt util account msg sig)).
    rewrite Hrun.
    now apply verified_resolved.
  - rewrite (personalSign_authereum fmt util abi window web3 account msg
               sig Hsign Him).
    destruct (authereumValid fmt abi web3 account msg sig)
      as [tr [valid|e0|]] eqn:Hrun; cbn;
      [|split; [discriminate | intros e; discriminate]..].
    destruct (valid_result valid) eqn:Hv; cbn;
      (split; [|intros e; discriminate]); [|discriminate].
    intros Heq. injection Heq as Heq. subst s. split; [reflexivity|].
    right. right. left. split; [reflexivity|].
    change (verified (authereumValid fmt abi web3 account msg sig)).
    rewrite Hrun.
    now apply verified_resolved.
  - destruct (personalSign_generic_outcome fmt util abi window web3 account
                msg walletType sig Hsign Him Hwl Hau)
      as (tr1 & v1 & tr2 & v2 & tr3 & v3 & H1 & H2 & H3 & _ & _ & _ & Hp).
    destruct (mykeyWalletValid fmt util abi web3 account msg sig)
      as [tr4 st4] eqn:H4.
    rewrite Hp. unfold outcome, trace.
    assert (Hgen : forall run,
              In run (generic_chain fmt util abi web3 account msg sig) ->
              verified run ->
              Success sig = Success sig /\
              (false = true \/
               (walletType = JS.Str "WalletLink" /\
                verified (walletLinkValid fmt util account msg sig)) \/
               (walletType = JS.Str "Authereum" /\
                verified (authereumValid fmt abi web3 account msg sig)) \/
               (walletType <> JS.Str "WalletLink" /\
                walletType <> JS.Str "Authereum" /\
                Exists verified
                  (generic_chain fmt util abi web3 account msg sig)))).
    { intros run Hin Hver. split; [reflexivity|]. right. right. right.
      split; [exact (proj1 (strict_eq_string_false _ _) Hwl)|].
      split; [exact (proj1 (strict_eq_string_false _ _) Hau)|].
      apply Exists_exists. exists run.
      split; [first [exact Hin | apply list_elem_of_In; exact Hin]
             | exact Hver]. }
    destruct (valid_result v1) eqn:T1;
      [|destruct (valid_result v2) eqn:T2;
        [|destruct (valid_result v3) eqn:T3]];
      cbn; (split; [|intros e; try discriminate]).
    + intros Heq. injection Heq as Heq. subst s.
      apply (Hgen (tr1, Resolved v1));
        [unfold generic_chain; rewrite H1; now left
        | now apply verified_resolved].
    + intros Heq. injection Heq as Heq. subst s.
      apply (Hgen (tr2, Resolved v2));
        [unfold generic_chain; rewrite H2; right; now left
        | now apply verified_resolved].
    + intros Heq. injection Heq as Heq. subst s.
      apply (Hgen (tr3, Resolved v3));
        [unfold generic_chain; rewrite H3; right; right; now left
        | now apply verified_resolved].
    + destruct st4 as [v4|e0|]; cbn; try discriminate.
      destruct (valid_result v4) eqn:T4; [|discriminate].
      intros Heq. injection Heq as Heq. subst s.
      apply (Hgen (tr4, Resolved v4));
        [unfold generic_chain; rewrite H4; right; right; right; now left
        | now apply verified_resolved].
    + destruct st4 as [v4|e0|]; discriminate.
Qed.

Lemma personalSign_accepts_only_verified_witness :
  let web3 := Sample.provider (Success (Sample.rpc_sig "1b"))
                (Success "0x0000") Sample.bytes32_wallet in
  personal_sign web3 "hello" Sample.account "" = Success (Sample.rpc_sig "1b").
Proof.
  intros web3.
  exact (proj1 (proj1 (personalSign_accepts_only_verified
                  Sample.fmt Sample.util Sample.abi Sample.plain_window web3
                  Sample.account "hello" JS.Undefined (Sample.rpc_sig "1b"))
                  eq_refl)).
Defined.

(** X14.  [personalSign] never settles in exactly two situations, both
    after a successful sign call outside imToken: under the hint
    WalletLink when the public key cannot be recovered from the
    signature; and in the generic chain when the first three functions
    ended without a verification, the registry call succeeded and
    something in the callback of [mykeyWalletValid] threw.  In every
    other case -- a failed sign call, imToken, the hint Authereum --
    it resolves. *)
Theorem personalSign_hangs_iff
    fmt util abi window web3 account msg walletType :
  let p := personalSign fmt util abi window web3 account msg walletType in
  outcome p = Pending <->
  exists sig,
    personal_sign web3 msg account "" = Success sig /\
    is_imToken window = false /\
    ((walletType = JS.Str "WalletLink" /\
      recovery_fails util
        (hashPersonalMessage util (toBuffer fmt (JS.Str msg))) sig) \/
     (walletType <> JS.Str "WalletLink" /\
      walletType <> JS.Str "Authereum" /\
      not_verified (ecRecover web3 account msg sig) /\
      not_verified (contractWalletValidate fmt util abi web3 account msg sig) /\
      not_verified (contractWalletValidate2 fmt util abi web3 account msg sig) /\
      exists res,
        eth_call web3 myKeyContract
          (encodeInputs abi "getKeyData"
             [("_account", JS.Str account); ("_index", JS.Number (JS.Num 3))])
        = Success res /\
        mykey_callback_throws fmt util abi msg sig res)).
Proof.
  intros p. subst p.
  destruct (personal_sign web3 msg account "") as [err|sig] eqn:Hsign.
  { rewrite (personalSign_failure fmt util abi window web3 account msg
               walletType err Hsign).
    split; [discriminate | intros (? & Heq & _); discriminate Heq]. }
  destruct (is_imToken window) eqn:Him.
  { rewrite (personalSign_imToken fmt util abi window web3 account msg
               walletType sig Hsign Him).
    split; [discriminate | intros (? & _ & Heq & _); discriminate Heq]. }
  destruct (hint_cases walletType) as [->|[->|[Hwl Hau]]].
  - rewrite (personalSign_walletLink fmt util abi window web3 account msg
               sig Hsign Him).
    destruct (walletLinkValid_cases fmt util account msg sig)
      as [(signature & pub & Hsig & Hrec & Hrun)|(e & Hfail & Hrun)];
      rewrite Hrun; cbn.
    + split.
      * destruct (String.eqb _ _); discriminate.
      * intros (sig' & Heq & _ & [[_ Hfail]|(Hne & _)]);
          [|congruence].
        injection Heq as Heq. subst sig'. exfalso.
        exact (recovery_fails_excludes _ _ _ _ _ Hfail Hsig Hrec).
    + split; [|reflexivity]. intros _. exists sig.
      split; [reflexivity|]. split; [reflexivity|]. left.
      split; [reflexivity | exact Hfail].
  - rewrite (personalSign_authereum fmt util abi window web3 account msg
               sig Hsign Him).
    destruct (authereumValid_resolves fmt abi web3 account msg sig)
      as (tr & valid & Hrun & _).
    rewrite Hrun. cbn. split.
    + destruct (valid_result valid); discriminate.
    + intros (sig' & _ & _ & [[Heq _]|(_ & Hne & _)]);
        [discriminate Heq | congruence].
  - pose proof (proj1 (strict_eq_string_false _ _) Hwl) as Hnwl.
    pose proof (proj1 (strict_eq_string_false _ _) Hau) as Hnau.
    destruct (personalSign_generic_outcome fmt util abi window web3 account
                msg walletType sig Hsign Him Hwl Hau)
      as (tr1 & v1 & tr2 & v2 & tr3 & v3 & H1 & H2 & H3 & _ & _ & _ & Hp).
    rewrite Hp.
    destruct (mykeyWalletValid_cases fmt util abi web3 account msg sig)
      as [(v4 & Hrun & Hwhy)|(res & Hcall & Hthrows & Hrun)];
      rewrite Hrun; unfold outcome, trace; cbn [fst snd].
    + split.
      * destruct (valid_result v1), (valid_result v2), (valid_result v3);
          cbn [snd]; discriminate.
      * intros (sig' & Heq & _ & [[Heq' _]|(_ & _ & _ & _ & _ & res & Hcall
                                           & Hthrows)]); [congruence|].
        injection Heq as Heq. subst sig'. exfalso.
        destruct Hwhy as [[err He]|(res' & Hcall' & Hno)]; [congruence|].
        rewrite Hcall in Hcall'. injection Hcall' as <-. contradiction.
    + split.
      * destruct (valid_result v1) eqn:T1, (valid_result v2) eqn:T2,
          (valid_result v3) eqn:T3; cbn [snd]; try discriminate.
        intros _. exists sig. split; [reflexivity|]. split; [reflexivity|].
        right. split; [exact Hnwl|]. split; [exact Hnau|].
        rewrite H1, H2, H3, !not_verified_resolved.
        repeat (split; [assumption|]).
        exists res. split; assumption.
      * intros (sig' & Heq & _ & [[Heq' _]|(_ & _ & T1 & T2 & T3 & _)]);
          [congruence|].
        injection Heq as Heq. subst sig'.
        rewrite H1 in T1. rewrite H2 in T2. rewrite H3 in T3.
        apply not_verified_resolved in T1, T2, T3.
        rewrite T1, T2, T3. reflexivity.
Qed.

(** X15.  [personalSign] enters [mykeyWalletValid] -- and so asks the
    MyKey registry -- exactly when the sign call succeeded outside
    imToken, the hint is neither WalletLink nor Authereum, and
    [ecRecover], [contractWalletValidate] and [contractWalletValidate2]
    all ended without a verification. *)
Theorem registry_asked_only_after_three_failures
    fmt util abi window web3 account msg walletType :
  let p := personalSign fmt util abi window web3 account msg walletType in
  In MyKeyRegistryValid (entered (trace p)) <->
  exists sig,
    personal_sign web3 msg account "" = Success sig /\
    is_imToken window = false /\
    walletType <> JS.Str "WalletLink" /\
    walletType <> JS.Str "Authereum" /\
    not_verified (ecRecover web3 account msg sig) /\
    not_verified (contractWalletValidate fmt util abi web3 account msg sig) /\
    not_verified (contractWalletValidate2 fmt util abi web3 account msg sig).
Proof.
  intros p. subst p.
  destruct (personal_sign web3 msg account "") as [err|sig] eqn:Hsign.
  { rewrite (personalSign_failure fmt util abi window web3 account msg
               walletType err Hsign).
    split; [intros [] | intros (? & Heq & _); discriminate Heq]. }
  destruct (is_imToken window) eqn:Him.
  { rewrite (personalSign_imToken fmt util abi window web3 account msg
               walletType sig Hsign Him).
    split; [intros [] | intros (? & _ & Heq & _); discriminate Heq]. }
  destruct (hint_cases walletType) as [->|[->|[Hwl Hau]]].
  - rewrite (personalSign_walletLink fmt util abi window web3 account msg
               sig Hsign Him).
    split; [|intros (? & _ & _ & Hne & _); congruence].
    destruct (walletLinkValid_cases fmt util account msg sig)
      as [(signature & pub & _ & _ & Hrun)|(e & _ & Hrun)];
      rewrite Hrun; cbn.
    + destruct (String.eqb _ _); cbn; intros [H|[]]; discriminate H.
    + intros [H|[]]; discriminate H.
  - rewrite (personalSign_authereum fmt util abi window web3 account msg
               sig Hsign Him).
    split; [|intros (? & _ & _ & _ & Hne & _); congruence].
    destruct (authereumValid_resolves fmt abi web3 account msg sig)
      as (tr & valid & Hrun & Hent).
    rewrite Hrun. unfold trace.
    destruct (valid_result valid) eqn:Hv; cbn; rewrite Hv; cbn;
      rewrite entered_app, Hent; cbn; intros [H|[]]; discriminate H.
  - pose proof (proj1 (strict_eq_string_false _ _) Hwl) as Hnwl.
    pose proof (proj1 (strict_eq_string_false _ _) Hau) as Hnau.
    destruct (personalSign_generic_outcome fmt util abi window web3 account
                msg walletType sig Hsign Him Hwl Hau)
      as (tr1 & v1 & tr2 & v2 & tr3 & v3 & H1 & H2 & H3 & E1 & E2 & E3 & Hp).
    rewrite Hp.
    rewrite (mykeyWalletValid_trace fmt util abi web3 account msg sig).
    unfold trace.
    assert (Hnv : forall sig',
              Success sig = Success sig' ->
              not_verified (ecRecover web3 account msg sig') ->
              not_verified
                (contractWalletValidate fmt util abi web3 account msg sig') ->
              not_verified
                (contractWalletValidate2 fmt util abi web3 account msg sig') ->
              valid_result v1 = false /\ valid_result v2 = false /\
              valid_result v3 = false).
    { intros sig' Heq T1 T2 T3. injection Heq as Heq. subst sig'.
      rewrite H1 in T1. rewrite H2 in T2. rewrite H3 in T3.
      apply not_verified_resolved in T1, T2, T3. repeat split; assumption. }
    destruct (valid_result v1) eqn:T1; [|destruct (valid_result v2) eqn:T2;
      [|destruct (valid_result v3) eqn:T3]]; cbn [fst entered];
      rewrite ?entered_app, ?E1, ?E2, ?E3; cbn [In app entered].
    + split; [intros [H|[]]; discriminate H|].
      intros (sig' & Heq & _ & _ & _ & N1 & N2 & N3).
      destruct (Hnv sig' Heq N1 N2 N3) as (? & _); discriminate.
    + split; [intros [H|[H|[]]]; discriminate H|].
      intros (sig' & Heq & _ & _ & _ & N1 & N2 & N3).
      destruct (Hnv sig' Heq N1 N2 N3) as (_ & ? & _); discriminate.
    + split; [intros [H|[H|[H|[]]]]; discriminate H|].
      intros (sig' & Heq & _ & _ & _ & N1 & N2 & N3).
      destruct (Hnv sig' Heq N1 N2 N3) as (_ & _ & ?); discriminate.
    + split; [|intros _; right; right; right; left; reflexivity].
      intros _. exists sig. split; [reflexivity|]. split; [reflexivity|].
      split; [exact Hnwl|]. split; [exact Hnau|].
      rewrite H1, H2, H3, !not_verified_resolved. repeat split; assumption.
Qed.

(** ** The user is asked once *)

(** The requests that make the wallet ask its user: a signature or a
    transaction. *)
Definition is_prompt (ev : Event) : bool :=
  match ev with
  | EthSign _ _ | PersonalSign _ _ _ | EthSendTransaction _ => true
  | PersonalEcRecover _ _ | EthCall _ _ | Enter _ => false
  end.

Lemma prompts_app (tr1 tr2 : list Event) :
  List.filter is_prompt (tr1 ++ tr2)
  = (List.filter is_prompt tr1 ++ List.filter is_prompt tr2)%list.
Proof.
  induction tr1 as [|ev tr1 IH]; cbn; [reflexivity|].
  destruct (is_prompt ev); cbn; now rewrite IH.
Qed.

(** No verification function prompts the user. *)
Lemma verification_never_prompts fmt util abi web3 account msg sig :
  List.filter is_prompt (trace (ecRecover web3 account msg sig)) = [] /\
  List.filter is_prompt
    (trace (contractWalletValidate fmt util abi web3 account msg sig)) = [] /\
  List.filter is_prompt
    (trace (contractWalletValidate2 fmt util abi web3 account msg sig)) = [] /\
  List.filter is_prompt
    (trace (mykeyWalletValid fmt util abi web3 account msg sig)) = [] /\
  List.filter is_prompt
    (trace (authereumValid fmt abi web3 account msg sig)) = [] /\
  List.filter is_prompt
    (trace (walletLinkValid fmt util account msg sig)) = [].
Proof.
  destruct (ecRecover_resolves web3 account msg sig) as (v1 & H1 & _).
  destruct (contractWalletValidate_resolves fmt util abi web3 account msg sig)
    as (v2 & H2 & _).
  destruct (contractWalletValidate2_resolves fmt util abi web3 account msg sig)
    as (v3 & H3 & _).
  rewrite H1, H2, H3, mykeyWalletValid_trace, walletLinkValid_trace.
  repeat split.
  unfold authereumValid, request.
  destruct (eth_call web3 account _); reflexivity.
Qed.

(** X16.  Whatever the provider answers and whatever the hint,
    [personalSign] asks the user exactly once: its run holds one
    personal-sign request, first, and no other signing or transaction
    request. *)
Theorem personalSign_prompts_once
    fmt util abi window web3 account msg walletType :
  let p := personalSign fmt util abi window web3 account msg walletType in
  List.filter is_prompt (trace p) = [PersonalSign msg account ""] /\
  exists rest, trace p = PersonalSign msg account "" :: rest.
Proof.
  intros p. subst p.
  destruct (personal_sign web3 msg account "") as [err|sig] eqn:Hsign.
  { rewrite (personalSign_failure fmt util abi window web3 account msg
               walletType err Hsign).
    split; [reflexivity | eexists; reflexivity]. }
  destruct (is_imToken window) eqn:Him.
  { rewrite (personalSign_imToken fmt util abi window web3 account msg
               walletType sig Hsign Him).
    split; [reflexivity | eexists; reflexivity]. }
  destruct (verification_never_prompts fmt util abi web3 account msg sig)
    as (P1 & P2 & P3 & P4 & P5 & P6).
  unfold trace in *.
  destruct (hint_cases walletType) as [->|[->|[Hwl Hau]]].
  - rewrite (personalSign_walletLink fmt util abi window web3 account msg
               sig Hsign Him).
    destruct (walletLinkValid fmt util account msg sig) as [tr [valid|e|]];
      cbn in *; [destruct (valid_result valid); cbn|..];
      rewrite ?app_nil_r, P6; (split; [reflexivity | eexists; reflexivity]).
  - rewrite (personalSign_authereum fmt util abi window web3 account msg
               sig Hsign Him).
    destruct (authereumValid fmt abi web3 account msg sig) as [tr [valid|e|]];
      cbn in *; [destruct (valid_result valid); cbn|..];
      rewrite ?app_nil_r, P5; (split; [reflexivity | eexists; reflexivity]).
  - destruct (personalSign_generic_outcome fmt util abi window web3 account
                msg walletType sig Hsign Him Hwl Hau)
      as (tr1 & v1 & tr2 & v2 & tr3 & v3 & H1 & H2 & H3 & _ & _ & _ & Hp).
    rewrite Hp. rewrite H1 in P1. rewrite H2 in P2. rewrite H3 in P3.
    unfold trace. cbn [fst] in *.
    destruct (valid_result v1), (valid_result v2), (valid_result v3);
      cbn [fst List.filter is_prompt];
      rewrite ?prompts_app, ?P1, ?P2, ?P3, ?P4;
      (split; [reflexivity | eexists; reflexivity]).
Qed.
